(** * Heatmap layer synchronisation and geohash-grid source

    A shallow embedding of

      - [x-pack/plugins/gis/public/shared/layers/heatmap_layer.js]
        ([syncLayerWithMB], [syncData], [_fetchNewData]) and
      - [x-pack/plugins/gis/public/shared/layers/sources/es_geohashgrid_source.js]
        ([getGeoJsonPointsWithTotalCount], [_makeAggConfigs]),

    followed by the properties of the layer-synchronisation pipeline. *)

From Stdlib Require Import ZArith QArith Qround Qreduction Lia Lqa.
From stdpp Require Import base option list gmap strings.

Local Open Scope Z_scope.

(** ** JavaScript numbers

    A JavaScript number is an IEEE-754 double.  The model keeps the special
    values apart and represents the finite values by rationals: the finite
    operations below are the exact ones, the correctly rounded results of the
    source differ from them by rounding only.  Negative zero is identified
    with zero. *)
Module JS.

Inductive number : Type :=
| Fin (q : Q)
| NaN
| PosInf
| NegInf.

(** [undefined] converted by ToNumber is [NaN]; a missing property reads as
    [undefined]. *)
Definition to_number (v : option number) : number :=
  match v with
  | Some n => n
  | None => NaN
  end.

Definition of_Z (z : Z) : number := Fin (inject_Z z).
Definition of_N (n : N) : number := of_Z (Z.of_N n).

Definition isNaN (n : number) : bool :=
  match n with NaN => true | _ => false end.

Definition isFinite (n : number) : bool :=
  match n with Fin _ => true | _ => false end.

(** [Math.max(a, b)]: NaN if either argument is NaN. *)
Definition Math_max (a b : number) : number :=
  match a, b with
  | NaN, _ | _, NaN => NaN
  | PosInf, _ | _, PosInf => PosInf
  | NegInf, y => y
  | x, NegInf => x
  | Fin x, Fin y => if Qle_bool x y then Fin y else Fin x
  end.

(** [Math.round(x)]: the integer nearest to [x], ties towards +Infinity. *)
Definition Math_round (x : Q) : Z := Qfloor (x + (1 # 2)).

(** [a / b]. *)
Definition div (a b : number) : number :=
  match a, b with
  | NaN, _ | _, NaN => NaN
  | Fin x, Fin y =>
      if Qeq_bool y 0 then
        (if Qeq_bool x 0 then NaN
         else if Qle_bool 0 x then PosInf else NegInf)
      else Fin (Qred (x / y))
  | Fin _, (PosInf | NegInf) => Fin 0
  | PosInf, Fin y => if Qle_bool 0 y then PosInf else NegInf
  | NegInf, Fin y => if Qle_bool 0 y then NegInf else PosInf
  | (PosInf | NegInf), (PosInf | NegInf) => NaN
  end.

(** [a + b] on numbers. *)
Definition add (a b : number) : number :=
  match a, b with
  | NaN, _ | _, NaN => NaN
  | Fin x, Fin y => Fin (Qred (x + y))
  | PosInf, NegInf | NegInf, PosInf => NaN
  | PosInf, _ | _, PosInf => PosInf
  | NegInf, _ | _, NegInf => NegInf
  end.

(** [a === b] on numbers: NaN is not equal to itself. *)
Definition strict_eq (a b : number) : bool :=
  match a, b with
  | Fin x, Fin y => Qeq_bool x y
  | PosInf, PosInf | NegInf, NegInf => true
  | _, _ => false
  end.

(** A thrown value: an [Error] object with its constructor name and message. *)
Record Error : Type := mkError { name : string; message : string }.

Definition new_Error (msg : string) : Error :=
  {| name := "Error"; message := msg |}.

(** The [TypeError] raised by a property access on [undefined]
    (the message is the one of V8). *)
Definition TypeError_undefined (prop : string) : Error :=
  {| name := "TypeError";
     message := "Cannot read property '" +:+ prop +:+ "' of undefined" |}.

End JS.

Import JS.

(** ** GeoJSON features *)

(** A point feature: coordinates and the [properties] object. *)
Record Feature : Type := mkFeature {
  coordinates : Q * Q;
  properties : gmap string number
}.

(** [featureCollection.features]. *)
Abbreviation FeatureCollection := (list Feature).

Definition set_property (f : Feature) (k : string) (v : number) : Feature :=
  {| coordinates := coordinates f; properties := <[k := v]> (properties f) |}.

(** ** [HeatmapLayer.syncLayerWithMB]: the weight pass (lines 66-76) *)

Definition scaledPropertyName : string := "__kbn_heatmap_weight__".
Definition propertyName : string := "doc_count".

(** [features[i].properties[propertyName]] as a number. *)
Definition source_value (f : Feature) : number :=
  to_number (properties f !! propertyName).

(** First loop: [max = Math.max(features[i].properties[propertyName], max)],
    from [max = 0]. *)
Definition collection_max (features : FeatureCollection) : number :=
  fold_left (fun max f => Math_max (source_value f) max) features (Fin 0).

(** Second loop: every feature gets
    [properties[scaledPropertyName] = properties[propertyName] / max]. *)
Definition scale_features (max : number) (features : FeatureCollection)
  : FeatureCollection :=
  map (fun f => set_property f scaledPropertyName (div (source_value f) max))
      features.

Definition normalizeWeights (features : FeatureCollection) : FeatureCollection :=
  scale_features (collection_max features) features.

(** Lines 58-78 of [syncLayerWithMB]: what [mbSourceAfter.setData] is called
    with, if it is called.  The collection of the data request and the data
    bound to the map are compared as objects, by identity: a collection comes
    with the identity of its object.  Without a collection the source is
    given an empty one; a collection that is the one already bound is left
    alone; any other goes through the weight pass. *)
Definition syncLayerWithMB_setData
    (featureCollection : option (nat * FeatureCollection))
    (dataBoundToMap : option nat) : option FeatureCollection :=
  match featureCollection with
  | None => Some []
  | Some (object, features) =>
      if bool_decide (dataBoundToMap = Some object) then None
      else Some (normalizeWeights features)
  end.

(** The weight read back from a feature. *)
Definition weight (f : Feature) : option number :=
  properties f !! scaledPropertyName.

(** A feature as the data model has it: the count is a finite,
    non-negative number. *)
Definition count_feature (f : Feature) : Prop :=
  exists q : Q, properties f !! propertyName = Some (Fin q) /\ (0 <= q)%Q.

Definition point (docCount : N) : Feature :=
  {| coordinates := (0%Q, 0%Q);
     properties := {[ propertyName := of_N docCount ]} |}.

(** ** Collaborators of the source and of the layer *)

(** The map buffer: an axis-aligned rectangle in geographic coordinates. *)
Record Extent : Type := mkExtent {
  minLon : Q; minLat : Q; maxLon : Q; maxLat : Q
}.

Record TimeFilters : Type := mkTimeFilters { from : string; to : string }.

#[global] Instance TimeFilters_eq_dec : EqDecision TimeFilters.
Proof. solve_decision. Defined.

(** A field of an index pattern, and the index pattern with its
    [fields.byName] object. *)
Record Field : Type := mkField { field_name : string; field_type : string }.

Record IndexPattern : Type := mkIndexPattern {
  title : string;
  fields_byName : gmap string Field
}.

(** A bucket of the raw search response. *)
Record Bucket : Type := mkBucket { key : string; doc_count : N }.
Abbreviation Resp := (list Bucket).

(** ** [ESGeohashGridSource] *)

(** [this._descriptor] of the source. *)
Record Descriptor : Type := mkDescriptor {
  indexPatternId : string;
  geoField : string
}.

(** The [params] object of the [geohash_grid] aggregation. *)
Module Grid.
Record params : Type := mkParams {
  field : string;
  isFilteredByCollar : bool;
  useGeocentroid : bool;
  autoPrecision : bool;
  precision : number
}.
End Grid.

Inductive AggParams : Type :=
| EmptyParams
| GridParams (p : Grid.params).

Record AggConfig : Type := mkAggConfig {
  id : string;
  enabled : bool;
  type : string;
  schema : string;
  params : AggParams
}.

Definition _makeAggConfigs (this : Descriptor) (precision : number)
  : list AggConfig :=
  [ {| id := "1"; enabled := true; type := "count"; schema := "metric";
       params := EmptyParams |};
    {| id := "2"; enabled := true; type := "geohash_grid"; schema := "segment";
       params := GridParams
         {| Grid.field := geoField this;
            Grid.isFilteredByCollar := false;
            Grid.useGeocentroid := true;
            Grid.autoPrecision := false;
            Grid.precision := precision |} |} ].

(** The filters pushed by the [filter] callback of the search source:
    [createExtentFilter(extent, geoField.name, geoField.type)] and
    [timeService.createFilter(indexPattern, timeFilters)]. *)
Inductive Filter : Type :=
| ExtentFilter (extent : option Extent) (fieldName fieldType : string)
| TimeFilter (indexPattern : IndexPattern) (timeFilters : TimeFilters).

(** The fields set on the search source (lines 116-124). *)
Record SearchSource : Type := mkSearchSource {
  index : IndexPattern;
  size : Z;
  aggs : list AggConfig;
  filter : list Filter
}.

(** The handle returned by [inspectorAdapters.requests.start]. *)
Inductive RequestHandle : Type :=
| handle (layerId : option string) (layerName : option string).

(** [Symbol(description)]: the description and the identity of the symbol. *)
Record Symbol : Type := mkSymbol { description : string; identity : nat }.

(** [dataFilters]: the viewport state handed to [syncData]. *)
Record DataFilters : Type := mkDataFilters {
  zoom : Q;
  buffer : option Extent;
  timeFilters : TimeFilters;
  refreshTimerLastTriggeredAt : option Z
}.

(** [{ ...dataFilters, precision }]: the metadata of a data request. *)
Record DataMeta : Type := mkDataMeta {
  filters : DataFilters;
  precision : number
}.

(** Calls made on the collaborators, in the order they happen: the
    request-inspection adapter, the search source and the three callbacks of
    [syncData].  [GetSearchRequestBody h] is the call of line 128,
    [searchSource.getSearchRequestBody().then(body => h.json(body))]: the run
    makes it before it calls [fetch()] and does not await it.  [RequestJson]
    is the call of [json] its callback makes; it is no call of the run (see
    [requestBody_settled]). *)
Inductive Event : Type :=
| ResetRequest (layerId : option string)
| StartRequest (layerId : option string) (layerName : option string)
| RequestStats (h : RequestHandle)
| GetSearchRequestBody (h : RequestHandle)
| RequestJson (h : RequestHandle)
| ResponseStats (h : RequestHandle)
| RequestOk (h : RequestHandle) (resp : Resp)
| RequestError (h : RequestHandle) (error : Error)
| SearchFetch (searchSource : SearchSource)
| StartLoading (dataId : string) (requestToken : Symbol) (meta : DataMeta)
| StopLoading (dataId : string) (requestToken : Symbol) (data : FeatureCollection)
| OnLoadError (dataId : string) (requestToken : Symbol) (message : string).

(** The services the source imports: each call either returns or throws.
    The constructor [new AggConfigs], the calls on the request-inspection
    adapter and the two helpers that compute the statistics handed to it
    ([getRequestInspectorStats], [getResponseInspectorStats]) are taken to
    return. *)
Record Services : Type := mkServices {
  (** [indexPatternService.get(id)] *)
  indexPatternService_get : string -> Error + IndexPattern;
  (** [new SearchSource()] and the four [setField] calls, with
      [aggConfigs.toDsl()] *)
  searchSource_setup : SearchSource -> Error + unit;
  (** [searchSource.fetch()] *)
  searchSource_fetch : SearchSource -> Error + Resp;
  (** [tabifyAggResponse] followed by [convertToGeoJson] *)
  convertToGeoJson : list AggConfig -> Resp -> Error + FeatureCollection
}.

(** *** Effects: a call log, one local variable, and exceptions *)

(** The store threaded through a fetch: the calls made so far and the
    variable [inspectorRequest] of [getGeoJsonPointsWithTotalCount], which
    is [undefined] until it is assigned. *)
Record Store : Type := mkStore {
  log : list Event;
  inspectorRequest : option RequestHandle
}.

Definition Eff (A : Type) : Type := Store -> Store * (Error + A).

Definition ret {A} (a : A) : Eff A := fun s => (s, inr a).

Definition throw {A} (e : Error) : Eff A := fun s => (s, inl e).

Definition bind {A B} (m : Eff A) (k : A -> Eff B) : Eff B :=
  fun s =>
    match m s with
    | (s', inr a) => k a s'
    | (s', inl e) => (s', inl e)
    end.

(** [try { body } catch (error) { handler }]: the handler runs in the store
    the body left behind. *)
Definition try_catch {A} (body : Eff A) (handler : Error -> Eff A) : Eff A :=
  fun s =>
    match body s with
    | (s', inr a) => (s', inr a)
    | (s', inl e) => handler e s'
    end.

(** A call to a service. *)
Definition call {A} (r : Error + A) : Eff A := fun s => (s, r).

Definition emit (ev : Event) : Eff unit :=
  fun s => ({| log := log s ++ [ev]; inspectorRequest := inspectorRequest s |},
            inr tt).

(** [let inspectorRequest;] and [inspectorRequest = h]. *)
Definition declare_inspectorRequest : Eff unit :=
  fun s => ({| log := log s; inspectorRequest := None |}, inr tt).

Definition assign_inspectorRequest (h : RequestHandle) : Eff unit :=
  fun s => ({| log := log s; inspectorRequest := Some h |}, inr tt).

(** [inspectorRequest.prop]: a [TypeError] when the variable is still
    [undefined]. *)
Definition inspectorRequest_dot (prop : string) : Eff RequestHandle :=
  fun s =>
    match inspectorRequest s with
    | Some h => (s, inr h)
    | None => (s, inl (TypeError_undefined prop))
    end.

Declare Scope eff_scope.
Delimit Scope eff_scope with eff.
Notation "'let*' x ':=' m 'in' k" := (bind m (fun x => k))
  (at level 10, x name, m at level 100, k at level 200) : eff_scope.
Notation "m '>>' k" := (bind m (fun _ => k))
  (at level 62, right associativity) : eff_scope.

(** What the callback left on [getSearchRequestBody()] does once the
    promise settles, whenever that is: it hands the body to [json]; when the
    promise is rejected no one handles the rejection and no call is made. *)
Definition requestBody_settled {Body : Type} (h : RequestHandle)
    (body : Error + Body) : list Event :=
  match body with
  | inr _ => [RequestJson h]
  | inl _ => []
  end.

(** The arguments object of [getGeoJsonPointsWithTotalCount]; a key the
    caller leaves out is [undefined]. *)
Record FetchArgs : Type := mkFetchArgs {
  arg_precision : number;
  arg_extent : option Extent;
  arg_timeFilters : TimeFilters;
  arg_layerId : option string;
  arg_layerName : option string
}.

(** The search source once its four fields are set (lines 115-124). *)
Definition makeSearchSource (indexPattern : IndexPattern)
    (aggConfigs : list AggConfig) (geoField : Field) (args : FetchArgs)
  : SearchSource :=
  {| index := indexPattern;
     size := 0;
     aggs := aggConfigs;
     filter :=
       [ ExtentFilter (arg_extent args)
           (field_name geoField) (field_type geoField);
         TimeFilter indexPattern (arg_timeFilters args) ] |}.

Local Open Scope eff_scope.

(** [getGeoJsonPointsWithTotalCount] (lines 95-144).  The calls are logged in
    the order the run makes them.  Line 128 asks the search source for the
    request body and leaves a callback on the promise without awaiting it;
    the run goes on to [fetch()], and the [json] call of the callback is not
    one of its calls.  [getRequestInspectorStats] and
    [getResponseInspectorStats] are taken to return, so that inside the try
    block only the search source throws: while its fields are set or when the
    search is fetched.  The conversion is outside of the try block. *)
Definition getGeoJsonPointsWithTotalCount
    (this : Descriptor) (services : Services) (args : FetchArgs)
  : Eff FeatureCollection :=
  emit (ResetRequest (arg_layerId args)) >>
  let* indexPattern :=
    try_catch
      (call (indexPatternService_get services (indexPatternId this)))
      (fun error =>
         throw (new_Error ("Unable to find Index pattern "
                           +:+ indexPatternId this))) in
  match fields_byName indexPattern !! geoField this with
  | None =>
      throw (new_Error ("Index pattern " +:+ title indexPattern
                        +:+ " no longer contains the geo field "
                        +:+ geoField this))
  | Some geoField =>
      let aggConfigs := _makeAggConfigs this (arg_precision args) in
      declare_inspectorRequest >>
      let* resp :=
        try_catch
          (let searchSource :=
             makeSearchSource indexPattern aggConfigs geoField args in
           call (searchSource_setup services searchSource) >>
           emit (StartRequest (arg_layerId args) (arg_layerName args)) >>
           assign_inspectorRequest
             (handle (arg_layerId args) (arg_layerName args)) >>
           let* h := inspectorRequest_dot "stats" in
           emit (RequestStats h) >>
           emit (GetSearchRequestBody h) >>
           emit (SearchFetch searchSource) >>
           let* resp := call (searchSource_fetch services searchSource) in
           let* h := inspectorRequest_dot "stats" in
           emit (ResponseStats h) >>
           emit (RequestOk h resp) >>
           ret resp)
          (fun error =>
             let* h := inspectorRequest_dot "error" in
             emit (RequestError h error) >>
             throw (new_Error ("Elasticsearch search request failed, error: "
                               +:+ message error))) in
      call (convertToGeoJson services aggConfigs resp)
  end.

Local Close Scope eff_scope.

(** ** [HeatmapLayer] *)

(** A finished or running data request of the layer: the data it holds and
    the metadata it was started with ([getData()], [getMeta()]). *)
Record DataRequest : Type := mkDataRequest {
  data : option FeatureCollection;
  meta : DataMeta
}.

(** The layer: its descriptor, its source, what its style answers and the
    data request of its source, if there is one. *)
Record HeatmapLayer : Type := mkHeatmapLayer {
  getId : string;
  isVisible : bool;
  minZoom : Q;
  maxZoom : Q;
  getDisplayName : string;
  getPrecisionRefinementDelta : Z;
  _source : Descriptor;
  getSourceDataRequest : option DataRequest
}.

(** Modelled from the spec: [ALayer.showAtZoomLevel] ([layers/layer.js] is
    not part of the sources): the zoom lies within the zoom range the layer
    is configured with. *)
Definition showAtZoomLevel (this : HeatmapLayer) (zoom : Q) : bool :=
  Qle_bool (minZoom this) zoom && Qle_bool zoom (maxZoom this).

(** Rectangle containment. *)
Definition contains (outer inner : Extent) : bool :=
  Qle_bool (minLon outer) (minLon inner)
  && Qle_bool (minLat outer) (minLat inner)
  && Qle_bool (maxLon inner) (maxLon outer)
  && Qle_bool (maxLat inner) (maxLat outer).

(** Modelled from the spec: [ALayer.updateDueToExtent] ([layers/layer.js] is
    not part of the sources): an update is due when the current bounding
    extent is not already covered by the extent of the previous fetch. *)
Definition updateDueToExtent (source : Descriptor)
    (dataMeta : option DataMeta) (dataFilters : DataFilters) : bool :=
  match dataMeta ≫= (fun m => buffer (filters m)), buffer dataFilters with
  | Some previous, Some current => negb (contains previous current)
  | _, _ => true
  end.

(** Truthiness of a timestamp that may be [undefined]. *)
Definition truthy (t : option Z) : bool :=
  match t with
  | Some z => negb (z =? 0)
  | None => false
  end.

Section Layer.

(** [ZOOM_TO_PRECISION] of [utils/zoom_to_precision], which is not part of
    the sources: an object from integer zoom levels to precisions. *)
Context (ZOOM_TO_PRECISION : gmap Z N).
Context (services : Services).

(** Line 98:
    [ZOOM_TO_PRECISION[Math.round(zoom)] + getPrecisionRefinementDelta()]. *)
Definition targetPrecision (zoom : Q) (delta : Z) : number :=
  add (to_number (of_N <$> ZOOM_TO_PRECISION !! Math_round zoom)) (of_Z delta).

(** [dataMeta = sourceDataRequest ? sourceDataRequest.getMeta() : {}]:
    [None] stands for the empty object, all of whose properties read as
    [undefined]. *)
Definition dataMeta_of (this : HeatmapLayer) : option DataMeta :=
  meta <$> getSourceDataRequest this.

(** [dataMeta.precision === targetPrecision]. *)
Definition isSamePrecision (dataMeta : option DataMeta) (target : number)
  : bool :=
  match precision <$> dataMeta with
  | Some p => strict_eq p target
  | None => false
  end.

(** [_.isEqual(dataMeta.timeFilters, dataFilters.timeFilters)]. *)
Definition isSameTime (dataMeta : option DataMeta) (dataFilters : DataFilters)
  : bool :=
  bool_decide ((fun m => timeFilters (filters m)) <$> dataMeta
               = Some (timeFilters dataFilters)).

(** [dataFilters.refreshTimerLastTriggeredAt
     && !_.isEqual(dataMeta.refreshTimerLastTriggeredAt,
                   dataFilters.refreshTimerLastTriggeredAt)]. *)
Definition updateDueToRefreshTimer (dataMeta : option DataMeta)
    (dataFilters : DataFilters) : bool :=
  truthy (refreshTimerLastTriggeredAt dataFilters)
  && negb (bool_decide
             (dataMeta ≫= (fun m => refreshTimerLastTriggeredAt (filters m))
              = refreshTimerLastTriggeredAt dataFilters)).

Local Open Scope eff_scope.

(** [Symbol(`layer-source-refresh: this.getId()`)]: the template has no
    placeholder, the description is the text as it stands; [fresh] is the
    identity of the symbol minted. *)
Definition mintRequestToken (fresh : nat) : Symbol :=
  {| description := "layer-source-refresh: this.getId()"; identity := fresh |}.

(** The argument of the call into the source (lines 126-131): the object has
    no [layerId] key. *)
Definition sourceArguments (dataMeta : DataMeta) (layerName : string)
  : FetchArgs :=
  {| arg_precision := precision dataMeta;
     arg_extent := buffer (filters dataMeta);
     arg_timeFilters := timeFilters (filters dataMeta);
     arg_layerId := None;
     arg_layerName := Some layerName |}.

(** [_fetchNewData]. *)
Definition _fetchNewData (this : HeatmapLayer) (fresh : nat)
    (dataMeta : DataMeta) : Eff unit :=
  let requestToken := mintRequestToken fresh in
  emit (StartLoading "source" requestToken dataMeta) >>
  try_catch
    (let layerName := getDisplayName this in
     let* data :=
       getGeoJsonPointsWithTotalCount (_source this) services
         (sourceArguments dataMeta layerName) in
     emit (StopLoading "source" requestToken data))
    (fun error => emit (OnLoadError "source" requestToken (message error))).

(** [syncData]. *)
Definition syncData (this : HeatmapLayer) (fresh : nat)
    (dataFilters : DataFilters) : Eff unit :=
  if negb (isVisible this) || negb (showAtZoomLevel this (zoom dataFilters))
  then ret tt
  else
    match buffer dataFilters with
    | None => ret tt
    | Some _ =>
        let dataMeta := dataMeta_of this in
        let targetPrecision :=
          targetPrecision (zoom dataFilters)
            (getPrecisionRefinementDelta this) in
        let isSamePrecision := isSamePrecision dataMeta targetPrecision in
        let isSameTime := isSameTime dataMeta dataFilters in
        let updateDueToRefreshTimer :=
          updateDueToRefreshTimer dataMeta dataFilters in
        let updateDueToExtent :=
          updateDueToExtent (_source this) dataMeta dataFilters in
        if isSamePrecision && isSameTime
           && negb updateDueToExtent && negb updateDueToRefreshTimer
        then ret tt
        else
          let newDataMeta :=
            {| filters := dataFilters; precision := targetPrecision |} in
          _fetchNewData this fresh newDataMeta
    end.

Local Close Scope eff_scope.

(** The refetch decision of lines 95-111 on its own: the negation of the
    condition under which [syncData] returns without fetching. *)
Definition shouldRefetch (this : HeatmapLayer) (dataFilters : DataFilters)
  : bool :=
  let dataMeta := dataMeta_of this in
  negb (isSamePrecision dataMeta
          (targetPrecision (zoom dataFilters)
             (getPrecisionRefinementDelta this))
        && isSameTime dataMeta dataFilters
        && negb (updateDueToExtent (_source this) dataMeta dataFilters)
        && negb (updateDueToRefreshTimer dataMeta dataFilters)).

(** The metadata a fetch is started with, [{ ...dataFilters, precision }]. *)
Definition nextMetadata (this : HeatmapLayer) (dataFilters : DataFilters)
  : DataMeta :=
  {| filters := dataFilters;
     precision :=
       targetPrecision (zoom dataFilters) (getPrecisionRefinementDelta this) |}.

End Layer.

(** The layer once a request started with [m] holds the data [d]. *)
Definition accept (this : HeatmapLayer) (m : DataMeta)
    (d : option FeatureCollection) : HeatmapLayer :=
  {| getId := getId this;
     isVisible := isVisible this;
     minZoom := minZoom this;
     maxZoom := maxZoom this;
     getDisplayName := getDisplayName this;
     getPrecisionRefinementDelta := getPrecisionRefinementDelta this;
     _source := _source this;
     getSourceDataRequest := Some {| data := d; meta := m |} |}.

(** ** The precision as the specification words it

    The zoom is rounded, an out-of-range zoom takes the nearest defined entry
    of a table with keys [0..top], and the sum with the delta is clamped to
    the valid range [lo..hi] of the backend. *)
Definition clamp (lo hi x : Z) : Z := Z.max lo (Z.min hi x).

Definition table_top (table : gmap Z N) : Z :=
  map_fold (fun k _ top => Z.max k top) 0 table.

Definition precision_spec (table : gmap Z N) (lo hi : Z) (zoom : Q) (delta : Z)
  : option Z :=
  base ← table !! clamp 0 (table_top table) (Math_round zoom);
  Some (clamp lo hi (Z.of_N base + delta)).

(** Modelled from the spec: an instance of [ZOOM_TO_PRECISION] (the module
    [utils/zoom_to_precision] is not part of the sources): integer zoom levels
    0..30, base precisions that do not decrease with the zoom and stop at 12,
    the finest geohash precision. *)
Definition zoom_to_precision_table : gmap Z N :=
  list_to_map
    ([ (0, 1%N); (1, 2%N); (2, 2%N); (3, 2%N); (4, 3%N);
       (5, 3%N); (6, 4%N); (7, 4%N); (8, 4%N); (9, 5%N);
       (10, 5%N); (11, 6%N); (12, 6%N); (13, 6%N); (14, 7%N);
       (15, 7%N); (16, 8%N); (17, 8%N); (18, 8%N); (19, 9%N);
       (20, 9%N); (21, 10%N); (22, 10%N); (23, 10%N); (24, 11%N);
       (25, 11%N); (26, 12%N); (27, 12%N); (28, 12%N); (29, 12%N);
       (30, 12%N) ]
     : list (Z * N)).

(** The store a sync starts from: nothing logged. *)
Definition idle : Store := {| log := []; inspectorRequest := None |}.

(** ** Observing a sync *)

(** The calls a computation makes when it starts with nothing logged, and
    how it ends. *)
Definition calls {A} (m : Eff A) : list Event := log (m idle).1.
Definition outcome {A} (m : Eff A) : Error + A := (m idle).2.

(** The layer identifier a call on the request-inspection adapter is made
    with. *)
Definition sink_layerId (ev : Event) : option (option string) :=
  match ev with
  | ResetRequest layerId | StartRequest layerId _ => Some layerId
  | _ => None
  end.

(** The previous extent covers the current one. *)
Definition covered (previous : option DataMeta) (dataFilters : DataFilters)
  : Prop :=
  exists p c : Extent,
    previous ≫= (fun m => buffer (filters m)) = Some p
    /\ buffer dataFilters = Some c
    /\ contains p c = true.

(** The condition of line 109 spelled out, with the operators of the code:
    no previous metadata, a precision that is not [===] to the previous one,
    time filters that are not deeply equal, a refresh tick that is truthy and
    not deeply equal to the previous one, or an extent the previous fetch
    does not cover. *)
Definition refetch_required (ZOOM_TO_PRECISION : gmap Z N)
    (this : HeatmapLayer) (dataFilters : DataFilters) : Prop :=
  let previous := meta <$> getSourceDataRequest this in
  let target :=
    targetPrecision ZOOM_TO_PRECISION (zoom dataFilters)
      (getPrecisionRefinementDelta this) in
  getSourceDataRequest this = None
  \/ (exists m, previous = Some m /\ strict_eq (precision m) target = false)
  \/ (exists m, previous = Some m
                /\ timeFilters (filters m) <> timeFilters dataFilters)
  \/ (truthy (refreshTimerLastTriggeredAt dataFilters) = true
      /\ previous ≫= (fun m => refreshTimerLastTriggeredAt (filters m))
         <> refreshTimerLastTriggeredAt dataFilters)
  \/ ~ covered previous dataFilters.

(** Two numbers are the same value. *)
Definition same_number (a b : number) : Prop :=
  match a, b with
  | Fin x, Fin y => (x == y)%Q
  | NaN, NaN | PosInf, PosInf | NegInf, NegInf => True
  | _, _ => False
  end.

(** The refetch decision in the words of the specification: no previous
    fetch metadata exists, the computed precision differs from the previous
    precision, the current time range is not deeply equal to the previous
    one, a refresh tick is present and differs from the previous one, or the
    current extent is not covered by the previously fetched extent. *)
Definition refetch_claimed (ZOOM_TO_PRECISION : gmap Z N)
    (this : HeatmapLayer) (dataFilters : DataFilters) : Prop :=
  let previous := meta <$> getSourceDataRequest this in
  let target :=
    targetPrecision ZOOM_TO_PRECISION (zoom dataFilters)
      (getPrecisionRefinementDelta this) in
  getSourceDataRequest this = None
  \/ (exists m, previous = Some m /\ ~ same_number (precision m) target)
  \/ (exists m, previous = Some m
                /\ timeFilters (filters m) <> timeFilters dataFilters)
  \/ (is_Some (refreshTimerLastTriggeredAt dataFilters)
      /\ previous ≫= (fun m => refreshTimerLastTriggeredAt (filters m))
         <> refreshTimerLastTriggeredAt dataFilters)
  \/ ~ covered previous dataFilters.

(** A call of [searchSource.fetch()]. *)
Definition is_search (ev : Event) : bool :=
  match ev with SearchFetch _ => true | _ => false end.

(** A call of [inspectorAdapters.requests.start]. *)
Definition is_start (ev : Event) : bool :=
  match ev with StartRequest _ _ => true | _ => false end.

(** Modelled from the spec: the filters of a query are ANDed (the search
    source that evaluates them is not part of the sources): a document passes
    when every filter of the list holds of it. *)
Definition passes {Doc : Type} (holds : Filter -> Doc -> bool)
    (searchSource : SearchSource) (d : Doc) : bool :=
  forallb (fun f => holds f d) (filter searchSource).

(** The shapes a run of [getGeoJsonPointsWithTotalCount] can take, by the
    answers of the services. *)
Inductive source_run (this : Descriptor) (services : Services)
    (args : FetchArgs) (s : Store)
  : Store * (Error + FeatureCollection) -> Prop :=
| run_no_index_pattern e :
    indexPatternService_get services (indexPatternId this) = inl e ->
    source_run this services args s
      ({| log := log s ++ [ResetRequest (arg_layerId args)];
          inspectorRequest := inspectorRequest s |},
       inl (new_Error ("Unable to find Index pattern "
                       +:+ indexPatternId this)))
| run_no_geo_field indexPattern :
    indexPatternService_get services (indexPatternId this) = inr indexPattern ->
    fields_byName indexPattern !! geoField this = None ->
    source_run this services args s
      ({| log := log s ++ [ResetRequest (arg_layerId args)];
          inspectorRequest := inspectorRequest s |},
       inl (new_Error ("Index pattern " +:+ title indexPattern
                       +:+ " no longer contains the geo field "
                       +:+ geoField this)))
| run_setup_throws indexPattern field e :
    indexPatternService_get services (indexPatternId this) = inr indexPattern ->
    fields_byName indexPattern !! geoField this = Some field ->
    searchSource_setup services
      (makeSearchSource indexPattern
         (_makeAggConfigs this (arg_precision args)) field args) = inl e ->
    source_run this services args s
      ({| log := log s ++ [ResetRequest (arg_layerId args)];
          inspectorRequest := None |},
       inl (TypeError_undefined "error"))
| run_fetch_fails indexPattern field e :
    indexPatternService_get services (indexPatternId this) = inr indexPattern ->
    fields_byName indexPattern !! geoField this = Some field ->
    let searchSource :=
      makeSearchSource indexPattern
        (_makeAggConfigs this (arg_precision args)) field args in
    let h := handle (arg_layerId args) (arg_layerName args) in
    searchSource_setup services searchSource = inr tt ->
    searchSource_fetch services searchSource = inl e ->
    source_run this services args s
      ({| log := log s ++ [ ResetRequest (arg_layerId args);
                            StartRequest (arg_layerId args) (arg_layerName args);
                            RequestStats h; GetSearchRequestBody h;
                            SearchFetch searchSource; RequestError h e ];
          inspectorRequest := Some h |},
       inl (new_Error ("Elasticsearch search request failed, error: "
                       +:+ message e)))
| run_fetch_answers indexPattern field resp :
    indexPatternService_get services (indexPatternId this) = inr indexPattern ->
    fields_byName indexPattern !! geoField this = Some field ->
    let searchSource :=
      makeSearchSource indexPattern
        (_makeAggConfigs this (arg_precision args)) field args in
    let h := handle (arg_layerId args) (arg_layerName args) in
    searchSource_setup services searchSource = inr tt ->
    searchSource_fetch services searchSource = inr resp ->
    source_run this services args s
      ({| log := log s ++ [ ResetRequest (arg_layerId args);
                            StartRequest (arg_layerId args) (arg_layerName args);
                            RequestStats h; GetSearchRequestBody h;
                            SearchFetch searchSource;
                            ResponseStats h; RequestOk h resp ];
          inspectorRequest := Some h |},
       convertToGeoJson services (_makeAggConfigs this (arg_precision args))
         resp).

(** ** Sample inputs *)

Definition logs_pattern : IndexPattern :=
  {| title := "logs-*";
     fields_byName :=
       {[ "geo.coordinates" := mkField "geo.coordinates" "geo_point" ]} |}.

(** Services that answer: two buckets of 5 and 10 documents. *)
Definition services_ok : Services :=
  {| indexPatternService_get := fun _ => inr logs_pattern;
     searchSource_setup := fun _ => inr tt;
     searchSource_fetch :=
       fun _ => inr [ mkBucket "9q8y" 5; mkBucket "9q8z" 10 ];
     convertToGeoJson :=
       fun _ resp => inr ((fun b => point (doc_count b)) <$> resp) |}.

(** Services whose search source throws while its fields are set. *)
Definition services_setup_throws : Services :=
  {| indexPatternService_get := fun _ => inr logs_pattern;
     searchSource_setup :=
       fun _ => inl {| name := "TypeError";
                       message := "field is a required parameter" |};
     searchSource_fetch := searchSource_fetch services_ok;
     convertToGeoJson := convertToGeoJson services_ok |}.

(** Services whose search is refused by the backend. *)
Definition services_search_fails : Services :=
  {| indexPatternService_get := fun _ => inr logs_pattern;
     searchSource_setup := fun _ => inr tt;
     searchSource_fetch :=
       fun _ => inl (new_Error "search_phase_execution_exception");
     convertToGeoJson := convertToGeoJson services_ok |}.

(** Services whose response cannot be converted. *)
Definition services_convert_throws : Services :=
  {| indexPatternService_get := fun _ => inr logs_pattern;
     searchSource_setup := fun _ => inr tt;
     searchSource_fetch := searchSource_fetch services_ok;
     convertToGeoJson :=
       fun _ _ => inl {| name := "TypeError";
                         message := "Cannot read property 'buckets' of undefined" |} |}.

(** A visible layer shown at zooms 0..[top], never synced so far. *)
Definition heat (top : Q) : HeatmapLayer :=
  {| getId := "heat-1";
     isVisible := true;
     minZoom := 0;
     maxZoom := top;
     getDisplayName := "geohash_grid logs";
     getPrecisionRefinementDelta := 0;
     _source := {| indexPatternId := "logs"; geoField := "geo.coordinates" |};
     getSourceDataRequest := None |}.

Definition viewport (z : Q) : DataFilters :=
  {| zoom := z;
     buffer := Some (mkExtent (-10) (-10) 10 10);
     timeFilters := mkTimeFilters "now-15m" "now";
     refreshTimerLastTriggeredAt := None |}.

(** The same viewport with a refresh tick. *)
Definition ticking (z : Q) (tick : Z) : DataFilters :=
  {| zoom := z;
     buffer := Some (mkExtent (-10) (-10) 10 10);
     timeFilters := mkTimeFilters "now-15m" "now";
     refreshTimerLastTriggeredAt := Some tick |}.

(** A layer shown at zooms 0..40 that holds the data of a sync made with
    [dataFilters] on the sample table. *)
Definition synced_at (dataFilters : DataFilters) : HeatmapLayer :=
  accept (heat 40)
    (nextMetadata zoom_to_precision_table (heat 40) dataFilters) None.

(** A call of one of the three callbacks handed to [syncData]. *)
Definition is_callback (ev : Event) : bool :=
  match ev with
  | StartLoading _ _ _ | StopLoading _ _ _ | OnLoadError _ _ _ => true
  | _ => false
  end.

(** ** [HeatmapLayer.syncLayerWithMB] on the map *)

(** The calls [syncLayerWithMB] makes on the map: [addSource] with a geojson
    source holding an empty collection, [addLayer] with an empty [paint],
    [setData] on the source of the layer, and the three settings of its last
    lines ([setMBPaintProperties] is the one of the style, which is handed the
    map). *)
Inductive MbCall : Type :=
| AddSource (sourceId : string)
| AddLayer (layerId layerType sourceId : string)
| SetData (sourceId : string) (collection : FeatureCollection)
| SetLayoutProperty (layerId property value : string)
| SetMBPaintProperties (layerId weightProperty : string)
| SetLayerZoomRange (layerId : string) (lo hi : Q).

(** The map: the identifiers that have a source, and the calls made on it. *)
Record MbMap : Type := mkMbMap {
  mb_sources : gset string;
  mb_calls : list MbCall
}.

(** [mbMap.getSource(id)]: [undefined] unless a source was added under [id]. *)
Definition getSource (mbMap : MbMap) (sourceId : string) : option string :=
  if bool_decide (sourceId ∈ mb_sources mbMap) then Some sourceId else None.

Definition mb_call (mbMap : MbMap) (c : MbCall) : MbMap :=
  {| mb_sources :=
       match c with
       | AddSource sourceId => {[ sourceId ]} ∪ mb_sources mbMap
       | _ => mb_sources mbMap
       end;
     mb_calls := mb_calls mbMap ++ [c] |}.

(** The layer whose data request holds the collection [features]; the
    metadata of the request stays. *)
Definition with_features (this : HeatmapLayer) (features : FeatureCollection)
  : HeatmapLayer :=
  {| getId := getId this;
     isVisible := isVisible this;
     minZoom := minZoom this;
     maxZoom := maxZoom this;
     getDisplayName := getDisplayName this;
     getPrecisionRefinementDelta := getPrecisionRefinementDelta this;
     _source := _source this;
     getSourceDataRequest :=
       (fun r => {| data := Some features; meta := meta r |})
         <$> getSourceDataRequest this |}.

(** [syncLayerWithMB(mbMap)].  [object] is the identity of the collection
    object the data request holds and [dataBoundToMap] the identity of the
    object [ALayer.getBoundDataForSource] answers with ([None] for an object
    that is no collection of a request).  The weight pass writes into the
    collection of the request: the layer comes back with it. *)
Definition syncLayerWithMB (mbMap : MbMap) (this : HeatmapLayer)
    (object : nat) (dataBoundToMap : option nat)
  : Error + (MbMap * HeatmapLayer) :=
  let mbSource := getSource mbMap (getId this) in
  let heatmapLayerId := getId this +:+ "_heatmap" in
  let mbMap :=
    match mbSource with
    | Some _ => mbMap
    | None =>
        mb_call (mb_call mbMap (AddSource (getId this)))
          (AddLayer heatmapLayerId "heatmap" (getId this))
    end in
  let mbSourceAfter := getSource mbMap (getId this) in
  let sourceDataRequest := getSourceDataRequest this in
  let featureCollection := sourceDataRequest ≫= data in
  match featureCollection with
  | None =>
      match mbSourceAfter with
      | None => inl (TypeError_undefined "setData")
      | Some source => inr (mb_call mbMap (SetData source []), this)
      end
  | Some features =>
      let updated :=
        if bool_decide (dataBoundToMap = Some object) then inr (mbMap, this)
        else
          let features := normalizeWeights features in
          match mbSourceAfter with
          | None => inl (TypeError_undefined "setData")
          | Some source =>
              inr (mb_call mbMap (SetData source features),
                   with_features this features)
          end in
      match updated with
      | inl e => inl e
      | inr (mbMap, this) =>
          let mbMap :=
            mb_call mbMap
              (SetLayoutProperty heatmapLayerId "visibility"
                 (if isVisible this then "visible" else "none")) in
          let mbMap :=
            mb_call mbMap
              (SetMBPaintProperties heatmapLayerId scaledPropertyName) in
          let mbMap :=
            mb_call mbMap
              (SetLayerZoomRange heatmapLayerId (minZoom this) (maxZoom this)) in
          inr (mbMap, this)
      end
  end.

(** The identifier of the map layer, and the calls that add the source and
    the layer when the map has no source of the layer yet (lines 43-56). *)
Definition heatmapLayerId (this : HeatmapLayer) : string :=
  getId this +:+ "_heatmap".

Definition additions (mbMap : MbMap) (this : HeatmapLayer) : list MbCall :=
  match getSource mbMap (getId this) with
  | Some _ => []
  | None =>
      [ AddSource (getId this);
        AddLayer (heatmapLayerId this) "heatmap" (getId this) ]
  end.

(** The three calls of lines 80-82. *)
Definition settings (this : HeatmapLayer) : list MbCall :=
  [ SetLayoutProperty (heatmapLayerId this) "visibility"
      (if isVisible this then "visible" else "none");
    SetMBPaintProperties (heatmapLayerId this) scaledPropertyName;
    SetLayerZoomRange (heatmapLayerId this) (minZoom this) (maxZoom this) ].

(** The collection the data request of the layer holds. *)
Definition collection_of (this : HeatmapLayer) : option FeatureCollection :=
  getSourceDataRequest this ≫= data.

(** A call that writes a setting of the map layer. *)
Definition is_setting (c : MbCall) : bool :=
  match c with
  | SetLayoutProperty _ _ _ | SetMBPaintProperties _ _
  | SetLayerZoomRange _ _ _ => true
  | _ => false
  end.

(** A call that adds to the style of the map. *)
Definition is_addition (c : MbCall) : bool :=
  match c with
  | AddSource _ | AddLayer _ _ _ => true
  | _ => false
  end.

(** ** [ESGeohashGridSource]: schemas, descriptor, details, editor *)

(** An entry of [aggSchemas] (lines 33-53); [aggFilter] lists the aggregation
    types the schema admits. *)
Record Schema : Type := mkSchema {
  schema_group : string;
  schema_name : string;
  schema_title : string;
  schema_min : nat;
  schema_max : nat;
  aggFilter : list string;
  defaults : list (string * string)
}.

Definition aggSchemas : list Schema :=
  [ {| schema_group := "metrics";
       schema_name := "metric";
       schema_title := "Value";
       schema_min := 1;
       schema_max := 1;
       aggFilter :=
         ["count"; "avg"; "sum"; "min"; "max"; "cardinality"; "top_hits"];
       defaults := [("metric", "count")] |};
    {| schema_group := "buckets";
       schema_name := "segment";
       schema_title := "Geo Coordinates";
       schema_min := 1;
       schema_max := 1;
       aggFilter := ["geohash_grid"];
       defaults := [] |} ].

(** The aggregation specs filed under a schema. *)
Definition configs_of (s : Schema) (configs : list AggConfig)
  : list AggConfig :=
  List.filter (fun c => String.eqb (schema c) (schema_name s)) configs.

(** [ESGeohashGridSource.createDescriptor({ indexPatternId, geoField })]:
    the descriptor object, by key. *)
Definition createDescriptor (indexPatternId geoField : string)
  : gmap string string :=
  {[ "type" := "ES_GEOHASH_GRID";
     "indexPatternId" := indexPatternId;
     "geoField" := geoField ]}.

(** [this._descriptor.indexPatternId] and [this._descriptor.geoField], when
    the descriptor object has both keys. *)
Definition read_descriptor (descriptor : gmap string string)
  : option Descriptor :=
  indexPatternId ← descriptor !! "indexPatternId";
  geoField ← descriptor !! "geoField";
  Some {| indexPatternId := indexPatternId; geoField := geoField |}.

(** [renderDetails()]: the three rows, each a label and the text beside it;
    a key the descriptor lacks reads [undefined] and renders as nothing. *)
Definition renderDetails (descriptor : gmap string string)
  : list (string * option string) :=
  [ ("Type: ", Some "Geohash grid (todo, use icon)");
    ("Index pattern: ", descriptor !! "esIndexPattern");
    ("Point field: ", descriptor !! "pointField") ].

(** [getDisplayName()] of the source. *)
Definition source_getDisplayName (this : Descriptor) : string :=
  "geohash_grid " +:+ indexPatternId this.

(** The [Editor] component.  [setState] merges its argument into the state
    and then runs its callback; the debounced function is kept apart from its
    timer: a handler asks for it ([DebouncedLoad]) and [debouncedLoad] is what
    runs once the timer fires. *)
Module Editor.

(** An index pattern as the editor reads it: [indexPattern.id] and the rest. *)
Record Loaded : Type := mkLoaded { id : string; pattern : IndexPattern }.

Record State : Type := mkState {
  isLoadingIndexPattern : bool;
  indexPatternId : option string;
  indexPattern : option Loaded;
  geoField : option string
}.

(** The component: [this.state] and [this._isMounted], which no line sets
    before [componentDidMount]. *)
Record Component : Type := mkComponent {
  state : State;
  _isMounted : option bool
}.

(** What a handler sets off: a call of the debounced load, or of
    [props.onSelect]. *)
Inductive Effect : Type :=
| DebouncedLoad (indexPatternId : option string)
| OnSelect (indexPatternId geoField : string).

(** Truthiness of a string that may be [undefined]. *)
Definition truthy (s : option string) : bool :=
  match s with
  | Some s => negb (String.eqb s "")
  | None => false
  end.

Definition constructor : Component :=
  {| state := {| isLoadingIndexPattern := false;
                 indexPatternId := Some "";
                 indexPattern := None;
                 geoField := Some "" |};
     _isMounted := None |}.

Definition componentWillUnmount (this : Component) : Component :=
  {| state := state this; _isMounted := Some false |}.

Definition loadIndexPattern (id : option string) (this : Component)
  : Component * list Effect :=
  ({| state := {| isLoadingIndexPattern := true;
                  indexPatternId := indexPatternId (state this);
                  indexPattern := None;
                  geoField := None |};
      _isMounted := _isMounted this |},
   [DebouncedLoad id]).

Definition componentDidMount (this : Component) : Component * list Effect :=
  let this := {| state := state this; _isMounted := Some true |} in
  loadIndexPattern (indexPatternId (state this)) this.

(** [onIndexPatternSelect]: the second argument of its [setState] is the
    call [this.loadIndexPattern(indexPatternId)], which runs first. *)
Definition onIndexPatternSelect (id : option string) (this : Component)
  : Component * list Effect :=
  let '(this, effects) := loadIndexPattern id this in
  ({| state := {| isLoadingIndexPattern := isLoadingIndexPattern (state this);
                  indexPatternId := id;
                  indexPattern := indexPattern (state this);
                  geoField := geoField (state this) |};
      _isMounted := _isMounted this |},
   effects).

(** The function under [_.debounce]; [get] is [indexPatternService.get] and
    [this] the component as it is when the answer arrives. *)
Definition debouncedLoad (get : string -> Error + Loaded)
    (id : option string) (this : Component) : Component :=
  match id with
  | None => this
  | Some requested =>
      if String.eqb requested "" then this
      else
        match get requested with
        | inl err => this
        | inr loaded =>
            if negb (default false (_isMounted this)) then this
            else if negb (String.eqb (Editor.id loaded) requested) then this
            else
              {| state :=
                   {| isLoadingIndexPattern := false;
                      indexPatternId := indexPatternId (state this);
                      indexPattern := Some loaded;
                      geoField := geoField (state this) |};
                 _isMounted := _isMounted this |}
        end
  end.

Definition previewLayer (this : Component) : list Effect :=
  match indexPatternId (state this), geoField (state this) with
  | Some i, Some g =>
      if truthy (Some i) && truthy (Some g) then [OnSelect i g] else []
  | _, _ => []
  end.

Definition onGeoFieldSelect (g : option string) (this : Component)
  : Component * list Effect :=
  let this :=
    {| state := {| isLoadingIndexPattern := isLoadingIndexPattern (state this);
                   indexPatternId := indexPatternId (state this);
                   indexPattern := indexPattern (state this);
                   geoField := g |};
       _isMounted := _isMounted this |} in
  (this, previewLayer this).

(** [['geo_point'].includes(field.type)]. *)
Definition filterGeoField (field : Field) : bool :=
  bool_decide (field_type field ∈ ["geo_point"]).

(** [_renderGeoSelect()]: nothing without an index pattern in the state;
    otherwise the select with its [value] and its [fields]. *)
Definition _renderGeoSelect (this : Component)
  : option (option string * gmap string Field) :=
  loaded ← indexPattern (state this);
  Some (geoField (state this), fields_byName (pattern loaded)).

End Editor.

(** [renderEditor]: what [onSelect] hands to [onPreviewSource], the
    descriptor of the new source. *)
Definition renderEditor_onSelect (indexPatternId geoField : string)
  : gmap string string :=
  createDescriptor indexPatternId geoField.

(** * Properties *)

(** ** Numbers *)

Lemma Qred_inject_Z (z : Z) : Qred (inject_Z z) = inject_Z z.
Proof.
  unfold Qred, inject_Z.
  pose proof (Z.ggcd_gcd z 1) as Hg.
  pose proof (Z.ggcd_correct_divisors z 1) as Hd.
  destruct (Z.ggcd z 1) as [g [a b]]. simpl in Hg, Hd.
  rewrite Z.gcd_1_r in Hg. subst g. destruct Hd as [Ha Hb].
  replace a with z by lia. replace b with 1 by lia. reflexivity.
Qed.

Lemma add_of_Z (a b : Z) : add (of_Z a) (of_Z b) = of_Z (a + b).
Proof.
  unfold add, of_Z. f_equal.
  rewrite <- (Qred_inject_Z (a + b)).
  apply Qred_complete. rewrite inject_Z_plus. reflexivity.
Qed.

Lemma strict_eq_Fin_refl (q : Q) : strict_eq (Fin q) (Fin q) = true.
Proof. simpl. apply Qeq_bool_iff. reflexivity. Qed.

Lemma strict_eq_NaN_l (n : number) : strict_eq NaN n = false.
Proof. reflexivity. Qed.

Lemma Qle_bool_refl (q : Q) : Qle_bool q q = true.
Proof. apply Qle_bool_iff. apply Qle_refl. Qed.

(** [Math_round] returns the integer within one half of its argument, the
    upper one at a tie. *)
Lemma Math_round_nearest (x : Q) :
  (inject_Z (Math_round x) - (1 # 2) <= x
   /\ x < inject_Z (Math_round x) + (1 # 2))%Q.
Proof.
  unfold Math_round.
  pose proof (Qfloor_le (x + (1 # 2))) as Hle.
  pose proof (Qlt_floor (x + (1 # 2))) as Hlt.
  rewrite inject_Z_plus in Hlt. change (inject_Z 1) with 1%Q in Hlt.
  set (r := inject_Z (Qfloor (x + (1 # 2)))) in *.
  split; lra.
Qed.

Lemma Math_round_inject_Z (z : Z) : Math_round (inject_Z z) = z.
Proof.
  unfold Math_round.
  apply Z.le_antisymm.
  - assert (H : (Qfloor (inject_Z z + (1 # 2)) < z + 1)%Z); [| lia].
    rewrite <- (Qfloor_Z (z + 1)).
    rewrite Zlt_Qlt.
    eapply Qle_lt_trans; [apply Qfloor_le |].
    rewrite Qfloor_Z, inject_Z_plus.
    apply Qplus_lt_r. reflexivity.
  - rewrite <- (Qfloor_Z z) at 1.
    apply Qfloor_resp_le.
    rewrite <- (Qplus_0_r (inject_Z z)) at 1.
    apply Qplus_le_r. discriminate.
Qed.

(** ** The weight pass *)

Lemma collection_max_nil : collection_max [] = Fin 0.
Proof. reflexivity. Qed.

Lemma normalizeWeights_length (fc : FeatureCollection) :
  length (normalizeWeights fc) = length fc.
Proof. unfold normalizeWeights, scale_features. apply length_map. Qed.

Lemma normalizeWeights_lookup (fc : FeatureCollection) (i : nat) :
  normalizeWeights fc !! i
  = (fun f => set_property f scaledPropertyName
                (div (source_value f) (collection_max fc))) <$> fc !! i.
Proof. unfold normalizeWeights, scale_features. apply list_lookup_fmap. Qed.

Lemma weight_set_property (f : Feature) (v : number) :
  weight (set_property f scaledPropertyName v) = Some v.
Proof. unfold weight, set_property. simpl. apply lookup_insert_eq. Qed.

(** The pass writes the weight only: the coordinates and the other
    properties of every feature are the ones it had. *)
Lemma set_property_frame (f : Feature) (v : number) (k : string) :
  k <> scaledPropertyName ->
  coordinates (set_property f scaledPropertyName v) = coordinates f
  /\ properties (set_property f scaledPropertyName v) !! k = properties f !! k.
Proof.
  intros Hk. split; [reflexivity |].
  unfold set_property. simpl. apply lookup_insert_ne. congruence.
Qed.


Lemma div_Fin_pos (v m : Q) :
  (0 < m)%Q -> div (Fin v) (Fin m) = Fin (Qred (v / m)).
Proof.
  intros Hm. unfold div.
  destruct (Qeq_bool m 0) eqn:E; [| reflexivity].
  apply Qeq_bool_iff in E. rewrite E in Hm. by apply Qlt_irrefl in Hm.
Qed.



(** Without a guard on [max], a collection of zero counts divides zero by
    zero. *)
Lemma zero_counts_max (fc : FeatureCollection) :
  Forall (fun f => source_value f = of_N 0) fc -> collection_max fc = Fin 0.
Proof.
  unfold collection_max. induction 1 as [| f fc Hf _ IH]; [reflexivity |].
  cbn [fold_left]. rewrite Hf. exact IH.
Qed.

Lemma zero_counts_weights (fc : FeatureCollection) :
  Forall (fun f => source_value f = of_N 0) fc ->
  Forall (fun f' => weight f' = Some NaN) (normalizeWeights fc).
Proof.
  intros Hz. unfold normalizeWeights, scale_features.
  rewrite (zero_counts_max fc Hz).
  apply Forall_fmap. eapply Forall_impl; [exact Hz |].
  intros f Hf. simpl. rewrite weight_set_property, Hf. reflexivity.
Qed.

(** C1 (counterexample): for a collection in which every feature's
    [doc_count] is zero, the pass computes [max = 0] and sets every weight to
    [0 / 0], which is NaN and not 0. *)
Lemma normalizeWeights_zero_counts :
  collection_max [point 0; point 0] = Fin 0
  /\ weight <$> normalizeWeights [point 0; point 0] = [Some NaN; Some NaN].
Proof. split; reflexivity. Qed.

(** C1 (amended): the pass divides by the maximum without a guard; for every
    collection of counts whose maximum is positive, each weight it writes is
    a finite number, neither NaN nor an infinity, and the empty collection is
    left empty. *)
Theorem normalizeWeights_finite (fc : FeatureCollection) (m : Q) :
  Forall count_feature fc ->
  collection_max fc = Fin m ->
  (0 < m)%Q ->
  Forall (fun f' => exists w, weight f' = Some w /\ isFinite w = true
                              /\ isNaN w = false)
    (normalizeWeights fc)
  /\ normalizeWeights [] = [].
Proof.
  intros Hfc Hmax Hm. split; [| reflexivity].
  unfold normalizeWeights, scale_features. rewrite Hmax.
  apply Forall_fmap. eapply Forall_impl; [exact Hfc |].
  intros f (q & Hq & _). cbv beta. unfold compose.
  rewrite weight_set_property. unfold source_value. rewrite Hq.
  cbn [to_number]. rewrite div_Fin_pos by assumption. eauto.
Qed.

Lemma normalizeWeights_finite_witness :
  Forall (fun f' => exists w, weight f' = Some w /\ isFinite w = true
                              /\ isNaN w = false)
    (normalizeWeights [point 0; point 4])
  /\ normalizeWeights [] = [].
Proof.
  apply (normalizeWeights_finite [point 0; point 4] 4).
  - repeat constructor.
    + exists 0%Q. split; [reflexivity | discriminate].
    + exists 4%Q. split; [reflexivity | discriminate].
  - reflexivity.
  - reflexivity.
Defined.



(** ** The precision of a sync *)

Section Precision.

Context (ZOOM_TO_PRECISION : gmap Z N).

(** A zoom whose rounded value is not a key of the table reads [undefined],
    and [undefined + delta] is NaN. *)
Lemma targetPrecision_outside_table (zoom : Q) (delta : Z) :
  ZOOM_TO_PRECISION !! Math_round zoom = None ->
  targetPrecision ZOOM_TO_PRECISION zoom delta = NaN.
Proof.
  intros Hnone. unfold targetPrecision. rewrite Hnone. reflexivity.
Qed.

(** Whatever the table is, it has finitely many keys: some zoom level is
    outside of it. *)
Lemma targetPrecision_NaN_exists (delta : Z) :
  exists zoom : Q, targetPrecision ZOOM_TO_PRECISION zoom delta = NaN.
Proof.
  exists (inject_Z (fresh (dom ZOOM_TO_PRECISION))).
  apply targetPrecision_outside_table.
  rewrite Math_round_inject_Z.
  apply not_elem_of_dom. apply is_fresh.
Qed.

(** Inside the table the precision is the entry plus the delta. *)
Lemma targetPrecision_lookup (zoom : Q) (delta : Z) (base : N) :
  ZOOM_TO_PRECISION !! Math_round zoom = Some base ->
  targetPrecision ZOOM_TO_PRECISION zoom delta = of_Z (Z.of_N base + delta).
Proof.
  intros Hbase. unfold targetPrecision. rewrite Hbase.
  cbn [fmap option_fmap option_map to_number]. apply add_of_Z.
Qed.

(** C3 (amended): for every zoom level whose rounded value is a key of the
    table and for every refinement delta, the precision is the table entry at
    the zoom rounded to the nearest integer plus the delta, a finite integer;
    the sum is not clamped. *)
Theorem targetPrecision_in_table (zoom : Q) (delta : Z) (base : N) :
  ZOOM_TO_PRECISION !! Math_round zoom = Some base ->
  targetPrecision ZOOM_TO_PRECISION zoom delta = of_Z (Z.of_N base + delta)
  /\ (inject_Z (Math_round zoom) - (1 # 2) <= zoom
      /\ zoom < inject_Z (Math_round zoom) + (1 # 2))%Q.
Proof.
  intros Hbase. split.
  - by apply targetPrecision_lookup.
  - apply Math_round_nearest.
Qed.

End Precision.

Lemma targetPrecision_in_table_witness :
  targetPrecision zoom_to_precision_table (7 # 2) 1 = of_Z (Z.of_N 3 + 1)
  /\ (inject_Z (Math_round (7 # 2)) - (1 # 2) <= 7 # 2
      /\ 7 # 2 < inject_Z (Math_round (7 # 2)) + (1 # 2))%Q.
Proof.
  apply (targetPrecision_in_table zoom_to_precision_table (7 # 2) 1 3).
  vm_compute. reflexivity.
Defined.

(** The instance of the table is as the specification describes it: keys
    0..30, precisions that do not decrease and stay within 1..12. *)
Lemma zoom_to_precision_table_shape :
  table_top zoom_to_precision_table = 30
  /\ dom zoom_to_precision_table = list_to_set (seqZ 0 31)
  /\ (forall z1 z2 p1 p2,
        zoom_to_precision_table !! z1 = Some p1 ->
        zoom_to_precision_table !! z2 = Some p2 ->
        z1 <= z2 -> (1 <= p1 <= p2)%N /\ (p2 <= 12)%N).
Proof.
  split; [by vm_compute |]. split; [by vm_compute |].
  assert (Hall : map_Forall (fun z1 p1 =>
            map_Forall (fun z2 p2 =>
              z1 <= z2 -> (1 <= p1 <= p2)%N /\ (p2 <= 12)%N)
              zoom_to_precision_table) zoom_to_precision_table).
  { apply (bool_decide_unpack _). by vm_compute. }
  intros z1 z2 p1 p2 H1 H2. exact (Hall z1 p1 H1 z2 p2 H2).
Qed.

(** C3 (counterexample): with the table of 31 entries and the valid range
    1..12, zoom 31 yields NaN where the specification takes the entry of zoom
    30, and zoom 30 with delta 2 yields 14 where the specification clamps to
    12. *)
Lemma targetPrecision_not_clamped :
  targetPrecision zoom_to_precision_table 31 0 = NaN
  /\ precision_spec zoom_to_precision_table 1 12 31 0 = Some 12
  /\ targetPrecision zoom_to_precision_table 30 2 = of_Z 14
  /\ precision_spec zoom_to_precision_table 1 12 30 2 = Some 12.
Proof. repeat split; by vm_compute. Qed.

(** ** The refetch decision *)

Lemma contains_refl (e : Extent) : contains e e = true.
Proof. unfold contains. by rewrite !Qle_bool_refl. Qed.

Lemma updateDueToExtent_covered (source : Descriptor)
    (previous : option DataMeta) (dataFilters : DataFilters) :
  updateDueToExtent source previous dataFilters = false
  <-> covered previous dataFilters.
Proof.
  unfold updateDueToExtent, covered.
  destruct (previous ≫= _) as [p |], (buffer dataFilters) as [c |]; split;
    try discriminate; try (intros (? & ? & ? & ? & ?); discriminate).
  - intros H. apply negb_false_iff in H. by exists p, c.
  - intros (p' & c' & [= <-] & [= <-] & H). by rewrite H.
Qed.

Lemma syncData_unfold (ZOOM_TO_PRECISION : gmap Z N) (services : Services)
    (this : HeatmapLayer) (fresh : nat) (dataFilters : DataFilters) :
  syncData ZOOM_TO_PRECISION services this fresh dataFilters
  = if isVisible this && showAtZoomLevel this (zoom dataFilters)
       && bool_decide (is_Some (buffer dataFilters))
       && shouldRefetch ZOOM_TO_PRECISION this dataFilters
    then _fetchNewData services this fresh
           (nextMetadata ZOOM_TO_PRECISION this dataFilters)
    else ret tt.
Proof.
  unfold syncData, shouldRefetch, nextMetadata.
  destruct (isVisible this), (showAtZoomLevel this (zoom dataFilters));
    try reflexivity.
  destruct (buffer dataFilters) as [b |]; [| reflexivity].
  cbn [negb orb andb].
  rewrite bool_decide_true by eauto. cbn [andb].
  by destruct (_ && _ && negb _ && negb _).
Qed.

Lemma shouldRefetch_iff (ZOOM_TO_PRECISION : gmap Z N) (this : HeatmapLayer)
    (dataFilters : DataFilters) :
  shouldRefetch ZOOM_TO_PRECISION this dataFilters = true
  <-> refetch_required ZOOM_TO_PRECISION this dataFilters.
Proof.
  unfold shouldRefetch, refetch_required, dataMeta_of.
  rewrite negb_true_iff, !andb_false_iff, !negb_false_iff.
  rewrite <- not_false_iff_true, updateDueToExtent_covered.
  unfold isSamePrecision, isSameTime, updateDueToRefreshTimer.
  destruct (getSourceDataRequest this) as [r |];
    cbn [fmap option_fmap option_map mbind option_bind].
  - rewrite andb_true_iff, negb_true_iff, !bool_decide_eq_false.
    split.
    + intros [[[H | H] | H] | H].
      * right; left. eauto.
      * right; right; left. exists (meta r). split; [done | congruence].
      * by do 4 right.
      * by right; right; right; left.
    + intros [H | [(m & [= <-] & H) | [(m & [= <-] & H) | [H | H]]]].
      * discriminate.
      * by do 3 left.
      * left; left; right. congruence.
      * by right.
      * by left; right.
  - split; [by left |]. intros _. by do 3 left.
Qed.

(** When the guards of [syncData] pass, the sync fetches exactly when the
    condition of line 109 fails, spelled out with the operators of the code
    ([refetch_required]); otherwise it returns without a call and leaves the
    store as it was. *)
Lemma syncData_refetch_required (ZOOM_TO_PRECISION : gmap Z N)
    (services : Services) (this : HeatmapLayer) (fresh : nat)
    (dataFilters : DataFilters) (s : Store) :
  isVisible this = true ->
  showAtZoomLevel this (zoom dataFilters) = true ->
  is_Some (buffer dataFilters) ->
  (shouldRefetch ZOOM_TO_PRECISION this dataFilters = true
   <-> refetch_required ZOOM_TO_PRECISION this dataFilters)
  /\ (refetch_required ZOOM_TO_PRECISION this dataFilters ->
      syncData ZOOM_TO_PRECISION services this fresh dataFilters s
      = _fetchNewData services this fresh
          (nextMetadata ZOOM_TO_PRECISION this dataFilters) s)
  /\ (~ refetch_required ZOOM_TO_PRECISION this dataFilters ->
      syncData ZOOM_TO_PRECISION services this fresh dataFilters s
      = (s, inr tt)).
Proof.
  intros Hvis Hzoom Hbuf.
  split; [apply shouldRefetch_iff |].
  rewrite syncData_unfold, Hvis, Hzoom, bool_decide_true by assumption.
  cbn [andb]. rewrite <- shouldRefetch_iff.
  split; intros H.
  - by rewrite H.
  - apply not_true_is_false in H. by rewrite H.
Qed.

Lemma syncData_refetch_required_example :
  (shouldRefetch zoom_to_precision_table (heat 24) (viewport 3) = true
   <-> refetch_required zoom_to_precision_table (heat 24) (viewport 3))
  /\ (refetch_required zoom_to_precision_table (heat 24) (viewport 3) ->
      syncData zoom_to_precision_table services_ok (heat 24) 0 (viewport 3) idle
      = _fetchNewData services_ok (heat 24) 0
          (nextMetadata zoom_to_precision_table (heat 24) (viewport 3)) idle)
  /\ (~ refetch_required zoom_to_precision_table (heat 24) (viewport 3) ->
      syncData zoom_to_precision_table services_ok (heat 24) 0 (viewport 3) idle
      = (idle, inr tt)).
Proof.
  apply (syncData_refetch_required zoom_to_precision_table services_ok
           (heat 24) 0 (viewport 3) idle).
  - reflexivity.
  - reflexivity.
  - simpl. eauto.
Qed.

(** Against a number that is not NaN, [===] fails exactly when the two
    numbers differ. *)
Lemma strict_eq_false_iff (a b : number) :
  b <> NaN -> strict_eq a b = false <-> ~ same_number a b.
Proof.
  intros Hb. destruct a as [x | | |], b as [y | | |]; cbn; try tauto;
    try (split; [auto | reflexivity]); try (split; [discriminate | tauto]).
  rewrite <- not_true_iff_false, Qeq_bool_iff. reflexivity.
Qed.

(** A tick that is not 0 is truthy exactly when it is there. *)
Lemma truthy_is_Some (t : option Z) :
  t <> Some 0 -> truthy t = true <-> is_Some t.
Proof.
  intros Ht. destruct t as [z |]; cbn.
  - rewrite negb_true_iff, Z.eqb_neq. split; [eauto | intros _ ->; done].
  - split; [discriminate | by intros [? ?]].
Qed.

(** Where the precision is a number and the tick is not 0, the words of the
    specification and the operators of the code say the same. *)
Lemma refetch_claimed_iff_required (ZOOM_TO_PRECISION : gmap Z N)
    (this : HeatmapLayer) (dataFilters : DataFilters) :
  is_Some (ZOOM_TO_PRECISION !! Math_round (zoom dataFilters)) ->
  refreshTimerLastTriggeredAt dataFilters <> Some 0 ->
  refetch_claimed ZOOM_TO_PRECISION this dataFilters
  <-> refetch_required ZOOM_TO_PRECISION this dataFilters.
Proof.
  intros [base Hbase] Htick. unfold refetch_claimed, refetch_required.
  rewrite (targetPrecision_lookup ZOOM_TO_PRECISION (zoom dataFilters)
             (getPrecisionRefinementDelta this) base Hbase).
  rewrite (truthy_is_Some _ Htick).
  assert (Hprec : forall m : DataMeta,
            strict_eq (precision m)
              (of_Z (Z.of_N base + getPrecisionRefinementDelta this)) = false
            <-> ~ same_number (precision m)
                    (of_Z (Z.of_N base + getPrecisionRefinementDelta this))).
  { intros m. by apply strict_eq_false_iff. }
  split.
  - intros [H | [(m & Hm & H) | H]]; [by left | | by do 2 right].
    right; left. exists m. by rewrite Hprec.
  - intros [H | [(m & Hm & H) | H]]; [by left | | by do 2 right].
    right; left. exists m. by rewrite <- Hprec.
Qed.

(** C4 (amended): when the guards of [syncData] pass, the rounded zoom is a
    key of the precision table and the refresh tick is not 0, the sync
    fetches exactly when one of the five conditions holds: no previous fetch
    metadata, a computed precision that differs from the previous one, a time
    range that is not deeply equal to the previous one, a refresh tick that
    is present and differs from the previous one, or an extent the previous
    one does not cover; when none holds it returns without a call and leaves
    the store, and so the cached data request, as they were. *)
Theorem syncData_refetch_decision (ZOOM_TO_PRECISION : gmap Z N)
    (services : Services) (this : HeatmapLayer) (fresh : nat)
    (dataFilters : DataFilters) (s : Store) :
  isVisible this = true ->
  showAtZoomLevel this (zoom dataFilters) = true ->
  is_Some (buffer dataFilters) ->
  is_Some (ZOOM_TO_PRECISION !! Math_round (zoom dataFilters)) ->
  refreshTimerLastTriggeredAt dataFilters <> Some 0 ->
  (shouldRefetch ZOOM_TO_PRECISION this dataFilters = true
   <-> refetch_claimed ZOOM_TO_PRECISION this dataFilters)
  /\ (refetch_claimed ZOOM_TO_PRECISION this dataFilters ->
      syncData ZOOM_TO_PRECISION services this fresh dataFilters s
      = _fetchNewData services this fresh
          (nextMetadata ZOOM_TO_PRECISION this dataFilters) s)
  /\ (~ refetch_claimed ZOOM_TO_PRECISION this dataFilters ->
      syncData ZOOM_TO_PRECISION services this fresh dataFilters s
      = (s, inr tt)).
Proof.
  intros Hvis Hzoom Hbuf Hkey Htick.
  rewrite (refetch_claimed_iff_required _ _ _ Hkey Htick).
  split; [apply shouldRefetch_iff |].
  rewrite syncData_unfold, Hvis, Hzoom, bool_decide_true by assumption.
  cbn [andb]. rewrite <- shouldRefetch_iff.
  split; intros H.
  - by rewrite H.
  - apply not_true_is_false in H. by rewrite H.
Qed.

(** A layer that holds the data of a sync at zoom 3 made at tick 5, asked to
    sync at zoom 6 at tick 7. *)
Lemma syncData_refetch_decision_witness :
  (shouldRefetch zoom_to_precision_table (synced_at (ticking 3 5))
     (ticking 6 7) = true
   <-> refetch_claimed zoom_to_precision_table (synced_at (ticking 3 5))
         (ticking 6 7))
  /\ (refetch_claimed zoom_to_precision_table (synced_at (ticking 3 5))
        (ticking 6 7) ->
      syncData zoom_to_precision_table services_ok (synced_at (ticking 3 5)) 1
        (ticking 6 7) idle
      = _fetchNewData services_ok (synced_at (ticking 3 5)) 1
          (nextMetadata zoom_to_precision_table (synced_at (ticking 3 5))
             (ticking 6 7)) idle)
  /\ (~ refetch_claimed zoom_to_precision_table (synced_at (ticking 3 5))
          (ticking 6 7) ->
      syncData zoom_to_precision_table services_ok (synced_at (ticking 3 5)) 1
        (ticking 6 7) idle
      = (idle, inr tt)).
Proof.
  apply (syncData_refetch_decision zoom_to_precision_table services_ok
           (synced_at (ticking 3 5)) 1 (ticking 6 7) idle).
  - reflexivity.
  - reflexivity.
  - simpl. eauto.
  - vm_compute. eauto.
  - simpl. discriminate.
Defined.

(** C4 (counterexample): a layer that holds the data of a sync at zoom 31,
    outside the table, is asked to sync with the same viewport: none of the
    five conditions holds (the precision is NaN as before), yet the sync
    fetches.  A layer that holds the data of a sync made at tick 5 is asked
    to sync at tick 0: the tick is present and differs, yet no fetch is
    made. *)
Lemma syncData_refetch_decision_differs :
  (~ refetch_claimed zoom_to_precision_table (synced_at (viewport 31))
       (viewport 31)
   /\ shouldRefetch zoom_to_precision_table (synced_at (viewport 31))
        (viewport 31) = true
   /\ syncData zoom_to_precision_table services_ok (synced_at (viewport 31)) 1
        (viewport 31) idle
      = _fetchNewData services_ok (synced_at (viewport 31)) 1
          (nextMetadata zoom_to_precision_table (synced_at (viewport 31))
             (viewport 31)) idle)
  /\ (refetch_claimed zoom_to_precision_table (synced_at (ticking 3 5))
        (ticking 3 0)
      /\ shouldRefetch zoom_to_precision_table (synced_at (ticking 3 5))
           (ticking 3 0) = false
      /\ syncData zoom_to_precision_table services_ok
           (synced_at (ticking 3 5)) 1 (ticking 3 0) idle
         = (idle, inr tt)).
Proof.
  split; [split; [| split; by vm_compute] | split; [| split; by vm_compute]].
  - unfold refetch_claimed.
    intros [H | [(m & Hm & H) | [(m & Hm & H) | [[H _] | H]]]].
    + discriminate.
    + injection Hm as <-. apply H. by vm_compute.
    + injection Hm as <-. by apply H.
    + by destruct H.
    + apply H. exists (mkExtent (-10) (-10) 10 10), (mkExtent (-10) (-10) 10 10).
      by vm_compute.
  - unfold refetch_claimed. do 3 right. left. split; [by eexists |].
    discriminate.
Qed.

(** With a precision that is a number, a sync against the metadata it has
    itself computed finds nothing to update. *)
Lemma shouldRefetch_after_accept (ZOOM_TO_PRECISION : gmap Z N)
    (this : HeatmapLayer) (dataFilters : DataFilters)
    (d : option FeatureCollection) :
  is_Some (ZOOM_TO_PRECISION !! Math_round (zoom dataFilters)) ->
  is_Some (buffer dataFilters) ->
  shouldRefetch ZOOM_TO_PRECISION
    (accept this (nextMetadata ZOOM_TO_PRECISION this dataFilters) d)
    dataFilters = false.
Proof.
  intros [base Hbase] [b Hb].
  unfold shouldRefetch, dataMeta_of, accept, nextMetadata.
  cbn [getSourceDataRequest getPrecisionRefinementDelta _source
       fmap option_fmap option_map meta].
  apply negb_false_iff. rewrite !andb_true_iff, !negb_true_iff.
  repeat split.
  - unfold isSamePrecision. cbn [fmap option_fmap option_map precision].
    rewrite (targetPrecision_lookup ZOOM_TO_PRECISION (zoom dataFilters)
               (getPrecisionRefinementDelta this) base Hbase).
    apply strict_eq_Fin_refl.
  - unfold isSameTime. by apply bool_decide_eq_true.
  - apply updateDueToExtent_covered. exists b, b.
    cbn [mbind option_bind filters]. auto using contains_refl.
  - unfold updateDueToRefreshTimer.
    cbn [mbind option_bind filters].
    rewrite bool_decide_true by reflexivity. apply andb_false_r.
Qed.

(** C5 (amended): if a sync computes metadata from the viewport state and the
    snapshot is accepted, a second sync with the same viewport state and the
    same refinement delta decides not to fetch, provided the rounded zoom is
    a key of the precision table. *)
Theorem syncData_idempotent (ZOOM_TO_PRECISION : gmap Z N)
    (services : Services) (this : HeatmapLayer) (fresh : nat)
    (dataFilters : DataFilters) (d : option FeatureCollection) (s : Store) :
  is_Some (ZOOM_TO_PRECISION !! Math_round (zoom dataFilters)) ->
  is_Some (buffer dataFilters) ->
  let synced :=
    accept this (nextMetadata ZOOM_TO_PRECISION this dataFilters) d in
  getPrecisionRefinementDelta synced = getPrecisionRefinementDelta this
  /\ shouldRefetch ZOOM_TO_PRECISION synced dataFilters = false
  /\ syncData ZOOM_TO_PRECISION services synced fresh dataFilters s
     = (s, inr tt).
Proof.
  intros Htable Hbuf synced. split; [reflexivity |].
  pose proof (shouldRefetch_after_accept _ this _ d Htable Hbuf) as Hno.
  fold synced in Hno. split; [exact Hno |].
  rewrite syncData_unfold, Hno, andb_false_r. reflexivity.
Qed.

Lemma syncData_idempotent_witness :
  getPrecisionRefinementDelta
    (accept (heat 24)
       (nextMetadata zoom_to_precision_table (heat 24) (viewport 3)) None)
  = getPrecisionRefinementDelta (heat 24)
  /\ shouldRefetch zoom_to_precision_table
       (accept (heat 24)
          (nextMetadata zoom_to_precision_table (heat 24) (viewport 3)) None)
       (viewport 3) = false
  /\ syncData zoom_to_precision_table services_ok
       (accept (heat 24)
          (nextMetadata zoom_to_precision_table (heat 24) (viewport 3)) None)
       1 (viewport 3) idle
     = (idle, inr tt).
Proof.
  apply (syncData_idempotent zoom_to_precision_table services_ok (heat 24) 1
           (viewport 3) None idle).
  - vm_compute. eauto.
  - simpl. eauto.
Defined.

(** ** Running a fetch *)

Ltac eff_unfold :=
  unfold _fetchNewData, getGeoJsonPointsWithTotalCount, bind, try_catch, call,
    emit, ret, throw, declare_inspectorRequest, assign_inspectorRequest,
    inspectorRequest_dot.

Ltac eff_simpl :=
  cbn; rewrite <- ?app_assoc; cbn [app].

(** A hypothesis that an event is in a list of calls that is written out
    leaves one case per call it can be. *)
Ltac inv_calls :=
  intros;
  repeat match goal with
         | H : _ ∈ [] |- _ => by apply elem_of_nil in H
         | H : _ ∈ _ :: _ |- _ =>
             apply elem_of_cons in H as [H | H];
             [first [discriminate H | injection H; clear H; intros; subst] |]
         | |- _ ∉ _ => intros ?
         end.

(** An event is in a list of calls that is written out. *)
Ltac in_calls :=
  repeat first [apply list_elem_of_here | apply list_elem_of_further].

Section Source.

Context (this : Descriptor) (services : Services) (args : FetchArgs).

(** The index pattern cannot be fetched. *)
Lemma source_no_index_pattern (e : Error) (s : Store) :
  indexPatternService_get services (indexPatternId this) = inl e ->
  getGeoJsonPointsWithTotalCount this services args s
  = ({| log := log s ++ [ResetRequest (arg_layerId args)];
        inspectorRequest := inspectorRequest s |},
     inl (new_Error ("Unable to find Index pattern " +:+ indexPatternId this))).
Proof.
  intros Hget. eff_unfold. rewrite Hget. reflexivity.
Qed.

(** The index pattern has lost the geo field. *)
Lemma source_no_geo_field (indexPattern : IndexPattern) (s : Store) :
  indexPatternService_get services (indexPatternId this) = inr indexPattern ->
  fields_byName indexPattern !! geoField this = None ->
  getGeoJsonPointsWithTotalCount this services args s
  = ({| log := log s ++ [ResetRequest (arg_layerId args)];
        inspectorRequest := inspectorRequest s |},
     inl (new_Error ("Index pattern " +:+ title indexPattern
                     +:+ " no longer contains the geo field "
                     +:+ geoField this))).
Proof.
  intros Hget Hfield. eff_unfold. rewrite Hget. cbn. rewrite Hfield.
  reflexivity.
Qed.

Section Resolved.

Context (indexPattern : IndexPattern) (field : Field).
Context (Hget : indexPatternService_get services (indexPatternId this)
                = inr indexPattern).
Context (Hfield : fields_byName indexPattern !! geoField this = Some field).

Let searchSource : SearchSource :=
  makeSearchSource indexPattern (_makeAggConfigs this (arg_precision args))
    field args.
Let h : RequestHandle := handle (arg_layerId args) (arg_layerName args).

(** The search source throws before [inspectorRequest] is assigned: the
    handler reads [inspectorRequest.error] of [undefined]. *)
Lemma source_setup_throws (e : Error) (s : Store) :
  searchSource_setup services searchSource = inl e ->
  getGeoJsonPointsWithTotalCount this services args s
  = ({| log := log s ++ [ResetRequest (arg_layerId args)];
        inspectorRequest := None |},
     inl (TypeError_undefined "error")).
Proof.
  subst searchSource. intros Hsetup.
  eff_unfold. rewrite Hget. cbn. rewrite Hfield. cbn. rewrite Hsetup.
  reflexivity.
Qed.

(** The search itself fails. *)
Lemma source_fetch_fails (e : Error) (s : Store) :
  searchSource_setup services searchSource = inr tt ->
  searchSource_fetch services searchSource = inl e ->
  getGeoJsonPointsWithTotalCount this services args s
  = ({| log := log s ++ [ ResetRequest (arg_layerId args);
                          StartRequest (arg_layerId args) (arg_layerName args);
                          RequestStats h; GetSearchRequestBody h;
                          SearchFetch searchSource; RequestError h e ];
        inspectorRequest := Some h |},
     inl (new_Error ("Elasticsearch search request failed, error: "
                     +:+ message e))).
Proof.
  subst searchSource h. intros Hsetup Hfetch.
  eff_unfold. rewrite Hget. cbn. rewrite Hfield. cbn.
  rewrite Hsetup, Hfetch. eff_simpl. reflexivity.
Qed.

(** The search answers: the outcome is the one of the conversion. *)
Lemma source_fetch_answers (resp : Resp) (s : Store) :
  searchSource_setup services searchSource = inr tt ->
  searchSource_fetch services searchSource = inr resp ->
  getGeoJsonPointsWithTotalCount this services args s
  = ({| log := log s ++ [ ResetRequest (arg_layerId args);
                          StartRequest (arg_layerId args) (arg_layerName args);
                          RequestStats h; GetSearchRequestBody h;
                          SearchFetch searchSource;
                          ResponseStats h; RequestOk h resp ];
        inspectorRequest := Some h |},
     convertToGeoJson services (_makeAggConfigs this (arg_precision args))
       resp).
Proof.
  subst searchSource h. intros Hsetup Hfetch.
  eff_unfold. rewrite Hget. cbn. rewrite Hfield. cbn.
  rewrite Hsetup, Hfetch. eff_simpl. reflexivity.
Qed.

End Resolved.

(** Every run of the source has one of these shapes. *)
Lemma source_runs (s : Store) :
  source_run this services args s
    (getGeoJsonPointsWithTotalCount this services args s).
Proof.
  destruct (indexPatternService_get services (indexPatternId this))
    as [e | indexPattern] eqn:Hget.
  { rewrite (source_no_index_pattern e s Hget). by eapply run_no_index_pattern. }
  destruct (fields_byName indexPattern !! geoField this) as [field |] eqn:Hfield.
  2: { rewrite (source_no_geo_field indexPattern s Hget Hfield).
       by apply run_no_geo_field. }
  destruct (searchSource_setup services
              (makeSearchSource indexPattern
                 (_makeAggConfigs this (arg_precision args)) field args))
    as [e | []] eqn:Hsetup.
  { rewrite (source_setup_throws indexPattern field Hget Hfield e s Hsetup).
    by eapply run_setup_throws. }
  destruct (searchSource_fetch services
              (makeSearchSource indexPattern
                 (_makeAggConfigs this (arg_precision args)) field args))
    as [e | resp] eqn:Hfetch.
  - rewrite (source_fetch_fails indexPattern field Hget Hfield e s Hsetup Hfetch).
    by apply run_fetch_fails.
  - rewrite (source_fetch_answers indexPattern field Hget Hfield resp s
               Hsetup Hfetch).
    by apply run_fetch_answers.
Qed.

End Source.

Section Fetch.

Context (services : Services) (this : HeatmapLayer) (fresh : nat).
Context (dataMeta : DataMeta).

Let token : Symbol := mintRequestToken fresh.
Let args : FetchArgs := sourceArguments dataMeta (getDisplayName this).

(** What the layer does around the call into its source: it reports the
    start, then the data or the message of whatever was thrown, and returns. *)
Lemma fetchNewData_run (s : Store) :
  let started :=
    {| log := log s ++ [StartLoading "source" token dataMeta];
       inspectorRequest := inspectorRequest s |} in
  let run :=
    getGeoJsonPointsWithTotalCount (_source this) services args started in
  _fetchNewData services this fresh dataMeta s
  = ({| log :=
          log run.1
          ++ [ match run.2 with
               | inr data => StopLoading "source" token data
               | inl error => OnLoadError "source" token (message error)
               end ];
        inspectorRequest := inspectorRequest run.1 |},
     inr tt).
Proof.
  subst token args. cbv zeta.
  unfold _fetchNewData, bind at 1, try_catch, emit at 1.
  unfold bind at 1.
  destruct (getGeoJsonPointsWithTotalCount _ _ _ _) as [s1 [e | data]];
    reflexivity.
Qed.

(** Nothing is thrown out of [_fetchNewData]. *)
Lemma fetchNewData_returns (s : Store) :
  (_fetchNewData services this fresh dataMeta s).2 = inr tt.
Proof. by rewrite fetchNewData_run. Qed.

Lemma fetchNewData_missing_index_pattern (e : Error) :
  indexPatternService_get services (indexPatternId (_source this)) = inl e ->
  calls (_fetchNewData services this fresh dataMeta)
  = [ StartLoading "source" token dataMeta;
      ResetRequest None;
      OnLoadError "source" token
        ("Unable to find Index pattern " +:+ indexPatternId (_source this)) ].
Proof.
  intros Hget. unfold calls. rewrite fetchNewData_run. cbv zeta.
  by rewrite (source_no_index_pattern _ _ _ e _ Hget).
Qed.

Lemma fetchNewData_missing_geo_field (indexPattern : IndexPattern) :
  indexPatternService_get services (indexPatternId (_source this))
  = inr indexPattern ->
  fields_byName indexPattern !! geoField (_source this) = None ->
  calls (_fetchNewData services this fresh dataMeta)
  = [ StartLoading "source" token dataMeta;
      ResetRequest None;
      OnLoadError "source" token
        ("Index pattern " +:+ title indexPattern
         +:+ " no longer contains the geo field "
         +:+ geoField (_source this)) ].
Proof.
  intros Hget Hfield. unfold calls. rewrite fetchNewData_run. cbv zeta.
  by rewrite (source_no_geo_field _ _ _ indexPattern _ Hget Hfield).
Qed.

Lemma fetchNewData_search_fails (indexPattern : IndexPattern) (field : Field)
    (e : Error) :
  indexPatternService_get services (indexPatternId (_source this))
  = inr indexPattern ->
  fields_byName indexPattern !! geoField (_source this) = Some field ->
  let searchSource :=
    makeSearchSource indexPattern
      (_makeAggConfigs (_source this) (precision dataMeta)) field args in
  searchSource_setup services searchSource = inr tt ->
  searchSource_fetch services searchSource = inl e ->
  exists sinkCalls,
    calls (_fetchNewData services this fresh dataMeta)
    = StartLoading "source" token dataMeta
      :: sinkCalls
      ++ [ RequestError (handle None (Some (getDisplayName this))) e;
           OnLoadError "source" token
             ("Elasticsearch search request failed, error: " +:+ message e) ].
Proof.
  intros Hget Hfield searchSource Hsetup Hfetch.
  unfold calls. rewrite fetchNewData_run. cbv zeta.
  rewrite (source_fetch_fails (_source this) services args indexPattern field
             Hget Hfield e _ Hsetup Hfetch).
  eexists [_; _; _; _; _]. reflexivity.
Qed.

End Fetch.

(** ** The sync as a whole *)

Section Sync.

Context (ZOOM_TO_PRECISION : gmap Z N) (services : Services).
Context (this : HeatmapLayer) (fresh : nat) (dataFilters : DataFilters).

(** The calls of a fetch: the start is reported, the adapter is reset, and
    every call on the adapter carries [undefined] as its layer. *)
Lemma fetchNewData_calls (dataMeta : DataMeta) :
  exists rest,
    calls (_fetchNewData services this fresh dataMeta)
    = StartLoading "source" (mintRequestToken fresh) dataMeta
      :: ResetRequest None :: rest
    /\ Forall (fun ev => sink_layerId ev = None \/ sink_layerId ev = Some None)
         rest.
Proof.
  unfold calls. rewrite fetchNewData_run. cbv zeta.
  destruct (source_runs (_source this) services
              (sourceArguments dataMeta (getDisplayName this))
              {| log := log idle
                        ++ [StartLoading "source" (mintRequestToken fresh)
                              dataMeta];
                 inspectorRequest := inspectorRequest idle |});
    cbn -[String.append]; try destruct (convertToGeoJson _ _ _);
    eexists; (split; [reflexivity |]);
    repeat (apply List.Forall_cons; [first [by left | by right] |]);
    apply List.Forall_nil.
Qed.

(** C6: a sync makes a call (and the first one reports the start of a
    fetch) only when the layer is visible, the zoom is within the zoom range
    of the layer, a bounding extent is there and the refetch decision is
    true; without a bounding extent it returns and nothing is fetched. *)
Theorem syncData_fetch_guard :
  (calls (syncData ZOOM_TO_PRECISION services this fresh dataFilters) <> []
   <-> isVisible this = true
       /\ showAtZoomLevel this (zoom dataFilters) = true
       /\ is_Some (buffer dataFilters)
       /\ shouldRefetch ZOOM_TO_PRECISION this dataFilters = true)
  /\ (calls (syncData ZOOM_TO_PRECISION services this fresh dataFilters) = []
      \/ exists rest,
           calls (syncData ZOOM_TO_PRECISION services this fresh dataFilters)
           = StartLoading "source" (mintRequestToken fresh)
               (nextMetadata ZOOM_TO_PRECISION this dataFilters) :: rest)
  /\ (buffer dataFilters = None ->
      forall s,
        syncData ZOOM_TO_PRECISION services this fresh dataFilters s
        = (s, inr tt)).
Proof.
  rewrite syncData_unfold.
  destruct (fetchNewData_calls
              (nextMetadata ZOOM_TO_PRECISION this dataFilters))
    as (rest & Hcalls & _).
  split; [| split].
  - destruct (isVisible this), (showAtZoomLevel this (zoom dataFilters)),
      (bool_decide_reflect (is_Some (buffer dataFilters))) as [Hb | Hb],
      (shouldRefetch ZOOM_TO_PRECISION this dataFilters);
      cbn [andb]; try rewrite Hcalls; split;
      try done; try (by intros (? & ? & ? & ?)).
  - destruct (_ && _ && _ && _); [right | by left]. eauto.
  - intros Hnone s. rewrite Hnone.
    rewrite bool_decide_false by (by intros [? ?]).
    by rewrite andb_false_r.
Qed.

(** C10: in every sync, each reset and each start of the request-inspection
    adapter is made with [undefined] as the layer identifier; when the sync
    fetches, the adapter is reset with [undefined] and never with the
    identifier of the layer. *)
Theorem syncData_sink_layerId_undefined :
  Forall (fun ev => forall layerId, sink_layerId ev = Some layerId ->
                                    layerId = None)
    (calls (syncData ZOOM_TO_PRECISION services this fresh dataFilters))
  /\ (calls (syncData ZOOM_TO_PRECISION services this fresh dataFilters) <> []
      -> ResetRequest None
           ∈ calls (syncData ZOOM_TO_PRECISION services this fresh dataFilters)
         /\ ResetRequest (Some (getId this))
              ∉ calls (syncData ZOOM_TO_PRECISION services this fresh
                         dataFilters)).
Proof.
  rewrite syncData_unfold.
  destruct (fetchNewData_calls
              (nextMetadata ZOOM_TO_PRECISION this dataFilters))
    as (rest & Hcalls & Hrest).
  destruct (_ && _ && _ && _); [rewrite Hcalls | by split].
  assert (Hall : Forall (fun ev => forall layerId,
                           sink_layerId ev = Some layerId -> layerId = None)
                   (StartLoading "source" (mintRequestToken fresh)
                      (nextMetadata ZOOM_TO_PRECISION this dataFilters)
                    :: ResetRequest None :: rest)).
  { repeat constructor; [discriminate | by intros ? [= <-] |].
    eapply Forall_impl; [exact Hrest |]. cbv beta.
    intros ev [H | H] layerId; rewrite H; [discriminate | by intros [= <-]]. }
  split; [exact Hall | intros _; split].
  - apply list_elem_of_further, list_elem_of_here.
  - intros Hin.
    pose proof (proj1 (Forall_forall _ _) Hall _ Hin (Some (getId this))
                  eq_refl) as Hid.
    discriminate.
Qed.

End Sync.

(** ** The query of a fetch *)

(** C7: whatever the precision, the extent and the time range, the
    aggregation of a fetch has exactly two specs, the count metric and the
    geohash grid on the geo field with collar filtering off, the centroid on,
    auto-precision off and the precision of the caller; every search that is
    sent carries these specs and exactly two filters, the one of the extent
    and the one of the time range, and a document passes when both hold; and
    once the index pattern is fetched, has the geo field and the search
    source takes its fields, the fetch sends one search and no other: the one
    on that index pattern with size 0, these specs and these two filters. *)
Theorem aggregation_query_shape (this : Descriptor) (services : Services)
    (args : FetchArgs) :
  (exists metric grid p,
     _makeAggConfigs this (arg_precision args) = [metric; grid]
     /\ type metric = "count" /\ schema metric = "metric"
     /\ enabled metric = true
     /\ type grid = "geohash_grid" /\ schema grid = "segment"
     /\ enabled grid = true
     /\ params grid = GridParams p
     /\ Grid.field p = geoField this
     /\ Grid.isFilteredByCollar p = false
     /\ Grid.useGeocentroid p = true
     /\ Grid.autoPrecision p = false
     /\ Grid.precision p = arg_precision args)
  /\ (forall q,
        SearchFetch q
          ∈ calls (getGeoJsonPointsWithTotalCount this services args) ->
        aggs q = _makeAggConfigs this (arg_precision args)
        /\ exists field extentFilter timeFilter,
             fields_byName (index q) !! geoField this = Some field
             /\ extentFilter
                = ExtentFilter (arg_extent args)
                    (field_name field) (field_type field)
             /\ timeFilter = TimeFilter (index q) (arg_timeFilters args)
             /\ filter q = [extentFilter; timeFilter]
             /\ forall (Doc : Type) (holds : Filter -> Doc -> bool) (d : Doc),
                  passes holds q d
                  = holds extentFilter d && holds timeFilter d)
  /\ (forall indexPattern field,
        indexPatternService_get services (indexPatternId this)
        = inr indexPattern ->
        fields_byName indexPattern !! geoField this = Some field ->
        let q :=
          {| index := indexPattern;
             size := 0;
             aggs := _makeAggConfigs this (arg_precision args);
             filter :=
               [ ExtentFilter (arg_extent args)
                   (field_name field) (field_type field);
                 TimeFilter indexPattern (arg_timeFilters args) ] |} in
        searchSource_setup services q = inr tt ->
        List.filter is_search
          (calls (getGeoJsonPointsWithTotalCount this services args))
        = [SearchFetch q]).
Proof.
  split; [| split].
  - do 3 eexists. unfold _makeAggConfigs. split; [reflexivity |].
    cbn. by repeat split.
  - intros q Hq. unfold calls in Hq.
    assert (Hshape :
      forall indexPattern field,
        fields_byName indexPattern !! geoField this = Some field ->
        q = makeSearchSource indexPattern
              (_makeAggConfigs this (arg_precision args)) field args ->
        aggs q = _makeAggConfigs this (arg_precision args)
        /\ exists field extentFilter timeFilter,
             fields_byName (index q) !! geoField this = Some field
             /\ extentFilter
                = ExtentFilter (arg_extent args)
                    (field_name field) (field_type field)
             /\ timeFilter = TimeFilter (index q) (arg_timeFilters args)
             /\ filter q = [extentFilter; timeFilter]
             /\ forall (Doc : Type) (holds : Filter -> Doc -> bool) (d : Doc),
                  passes holds q d
                  = holds extentFilter d && holds timeFilter d).
    { intros indexPattern field Hfield ->. split; [reflexivity |].
      exists field. do 2 eexists.
      repeat split; try reflexivity; try exact Hfield.
      intros Doc holds d. unfold passes. cbn. by rewrite andb_true_r. }
    destruct (source_runs this services args idle)
      as [e Hget | ip Hget Hfield | ip field e Hget Hfield Hsetup
          | ip field e Hget Hfield searchSource h Hsetup Hfetch
          | ip field resp Hget Hfield searchSource h Hsetup Hfetch];
      cbn [fst log idle app] in Hq;
      repeat (apply elem_of_cons in Hq as [Hq | Hq]; try discriminate);
      try (by apply elem_of_nil in Hq);
      injection Hq as ->; by eapply Hshape.
  - intros indexPattern field Hget Hfield q Hsetup. unfold calls.
    destruct (searchSource_fetch services q) as [e | resp] eqn:Hfetch.
    + by rewrite (source_fetch_fails this services args indexPattern field
                    Hget Hfield e idle Hsetup Hfetch).
    + by rewrite (source_fetch_answers this services args indexPattern field
                    Hget Hfield resp idle Hsetup Hfetch).
Qed.

(** The sample source asked for precision 4 of an extent and a time range:
    one search goes out, with the two specs and the two filters. *)
Lemma aggregation_query_shape_witness :
  List.filter is_search
    (calls (getGeoJsonPointsWithTotalCount (_source (heat 24)) services_ok
              (sourceArguments
                 (nextMetadata zoom_to_precision_table (heat 24) (viewport 6))
                 "geohash_grid logs")))
  = [ SearchFetch
        {| index := logs_pattern;
           size := 0;
           aggs := _makeAggConfigs (_source (heat 24)) (of_Z 4);
           filter :=
             [ ExtentFilter (Some (mkExtent (-10) (-10) 10 10))
                 "geo.coordinates" "geo_point";
               TimeFilter logs_pattern (mkTimeFilters "now-15m" "now") ] |} ].
Proof.
  apply (proj2 (proj2
           (aggregation_query_shape (_source (heat 24)) services_ok
              (sourceArguments
                 (nextMetadata zoom_to_precision_table (heat 24) (viewport 6))
                 "geohash_grid logs")))
           logs_pattern (mkField "geo.coordinates" "geo_point"));
    reflexivity.
Defined.

(** ** Failures of a fetch *)

(** X1: nothing is thrown out of a sync: whatever the services answer,
    [syncData] returns. *)
Lemma syncData_returns (ZOOM_TO_PRECISION : gmap Z N) (services : Services)
    (this : HeatmapLayer) (fresh : nat) (dataFilters : DataFilters)
    (s : Store) :
  (syncData ZOOM_TO_PRECISION services this fresh dataFilters s).2 = inr tt.
Proof.
  rewrite syncData_unfold.
  destruct (_ && _ && _ && _); [apply fetchNewData_returns | reflexivity].
Qed.

(** C8 (counterexample): the conversion of the response is outside of the
    try block of the source; when it throws, the message handed to
    [onLoadError] is the one it threw, which names no stage. *)
Lemma syncData_conversion_failure_message :
  exists sinkCalls,
    calls (syncData zoom_to_precision_table services_convert_throws (heat 24)
             0 (viewport 3))
    = StartLoading "source" (mintRequestToken 0)
        (nextMetadata zoom_to_precision_table (heat 24) (viewport 3))
      :: sinkCalls
      ++ [ OnLoadError "source" (mintRequestToken 0)
             "Cannot read property 'buckets' of undefined" ].
Proof. eexists [_; _; _; _; _; _; _]. by vm_compute. Qed.

(** A search source that throws while its fields are set: the message is the
    one of the [TypeError] raised inside the catch handler of the source. *)
Lemma syncData_setup_failure_message :
  syncData zoom_to_precision_table services_setup_throws (heat 24) 0
    (viewport 3) idle
  = ({| log :=
          [ StartLoading "source" (mintRequestToken 0)
              (nextMetadata zoom_to_precision_table (heat 24) (viewport 3));
            ResetRequest None;
            OnLoadError "source" (mintRequestToken 0)
              "Cannot read property 'error' of undefined" ];
        inspectorRequest := None |},
     inr tt).
Proof. by vm_compute. Qed.

(** A search the backend refuses, start to end. *)
Lemma syncData_search_failure_calls :
  calls (syncData zoom_to_precision_table services_search_fails (heat 24) 0
           (viewport 3))
  = let dataMeta :=
      nextMetadata zoom_to_precision_table (heat 24) (viewport 3) in
    let h := handle None (Some "geohash_grid logs") in
    [ StartLoading "source" (mintRequestToken 0) dataMeta;
      ResetRequest None;
      StartRequest None (Some "geohash_grid logs");
      RequestStats h; GetSearchRequestBody h;
      SearchFetch
        (makeSearchSource logs_pattern
           (_makeAggConfigs (_source (heat 24)) (precision dataMeta))
           (mkField "geo.coordinates" "geo_point")
           (sourceArguments dataMeta "geohash_grid logs"));
      RequestError h (new_Error "search_phase_execution_exception");
      OnLoadError "source" (mintRequestToken 0)
        "Elasticsearch search request failed, error: search_phase_execution_exception" ].
Proof. by vm_compute. Qed.

(** C8 (amended): a missing index pattern reaches [onLoadError] with a
    message naming the index pattern, a missing geo field with a message
    naming the field, a search that fails with the wrapped message that
    includes the error of the backend, and a response that cannot be
    converted with the message of the error itself; nothing is thrown out of
    [_fetchNewData]. *)
Theorem fetchNewData_failures_reported (services : Services)
    (this : HeatmapLayer) (fresh : nat) (dataMeta : DataMeta) :
  let token := mintRequestToken fresh in
  let source := _source this in
  let get := indexPatternService_get services (indexPatternId source) in
  let reports (message : string) :=
    exists before,
      calls (_fetchNewData services this fresh dataMeta)
      = StartLoading "source" token dataMeta
        :: before ++ [OnLoadError "source" token message] in
  outcome (_fetchNewData services this fresh dataMeta) = inr tt
  /\ (forall e, get = inl e ->
        reports ("Unable to find Index pattern " +:+ indexPatternId source))
  /\ (forall indexPattern,
        get = inr indexPattern ->
        fields_byName indexPattern !! geoField source = None ->
        reports ("Index pattern " +:+ title indexPattern
                 +:+ " no longer contains the geo field "
                 +:+ geoField source))
  /\ (forall indexPattern field,
        get = inr indexPattern ->
        fields_byName indexPattern !! geoField source = Some field ->
        let searchSource :=
          makeSearchSource indexPattern
            (_makeAggConfigs source (precision dataMeta)) field
            (sourceArguments dataMeta (getDisplayName this)) in
        searchSource_setup services searchSource = inr tt ->
        (forall e,
           searchSource_fetch services searchSource = inl e ->
           reports ("Elasticsearch search request failed, error: "
                    +:+ message e))
        /\ (forall resp e,
              searchSource_fetch services searchSource = inr resp ->
              convertToGeoJson services
                (_makeAggConfigs source (precision dataMeta)) resp = inl e ->
              reports (message e))).
Proof.
  cbv zeta. split; [apply fetchNewData_returns |]. split; [| split].
  - intros e Hget. eexists [_].
    by rewrite (fetchNewData_missing_index_pattern _ _ _ _ e Hget).
  - intros indexPattern Hget Hfield. eexists [_].
    by rewrite (fetchNewData_missing_geo_field _ _ _ _ indexPattern Hget Hfield).
  - intros indexPattern field Hget Hfield Hsetup. split.
    + intros e Hfetch.
      destruct (fetchNewData_search_fails services this fresh dataMeta
                  indexPattern field e Hget Hfield Hsetup Hfetch)
        as (sinkCalls & ->).
      exists (sinkCalls
              ++ [RequestError (handle None (Some (getDisplayName this))) e]).
      by rewrite <- app_assoc.
    + intros resp e Hfetch Hconvert.
      unfold calls. rewrite fetchNewData_run. cbv zeta.
      rewrite (source_fetch_answers (_source this) services
                 (sourceArguments dataMeta (getDisplayName this))
                 indexPattern field Hget Hfield resp _ Hsetup Hfetch).
      cbn [fst snd log]. cbn [sourceArguments arg_precision].
      rewrite Hconvert. eexists [_; _; _; _; _; _; _]. reflexivity.
Qed.

(** C9: when a step of the try block throws before [inspectorRequest] is
    assigned, the catch handler of the source throws a [TypeError] itself:
    the source fails with it instead of the wrapped search error, the adapter
    is told of no start and of no error, and the layer hands the message of
    the [TypeError] to [onLoadError]. *)
Theorem source_catch_reads_undefined (services : Services)
    (this : HeatmapLayer) (fresh : nat) (dataMeta : DataMeta)
    (indexPattern : IndexPattern) (field : Field) (e : Error) :
  indexPatternService_get services (indexPatternId (_source this))
  = inr indexPattern ->
  fields_byName indexPattern !! geoField (_source this) = Some field ->
  searchSource_setup services
    (makeSearchSource indexPattern
       (_makeAggConfigs (_source this) (precision dataMeta)) field
       (sourceArguments dataMeta (getDisplayName this))) = inl e ->
  let run :=
    getGeoJsonPointsWithTotalCount (_source this) services
      (sourceArguments dataMeta (getDisplayName this)) in
  outcome run = inl (TypeError_undefined "error")
  /\ outcome run
     <> inl (new_Error ("Elasticsearch search request failed, error: "
                        +:+ message e))
  /\ calls run = [ResetRequest None]
  /\ calls (_fetchNewData services this fresh dataMeta)
     = [ StartLoading "source" (mintRequestToken fresh) dataMeta;
         ResetRequest None;
         OnLoadError "source" (mintRequestToken fresh)
           "Cannot read property 'error' of undefined" ].
Proof.
  intros Hget Hfield Hsetup run. subst run.
  unfold outcome, calls.
  rewrite fetchNewData_run. cbv zeta.
  rewrite !(source_setup_throws (_source this) services
              (sourceArguments dataMeta (getDisplayName this))
              indexPattern field Hget Hfield e _ Hsetup).
  repeat split. discriminate.
Qed.

Lemma source_catch_reads_undefined_witness :
  let run :=
    getGeoJsonPointsWithTotalCount (_source (heat 24)) services_setup_throws
      (sourceArguments
         (nextMetadata zoom_to_precision_table (heat 24) (viewport 3))
         (getDisplayName (heat 24))) in
  outcome run = inl (TypeError_undefined "error")
  /\ outcome run
     <> inl (new_Error ("Elasticsearch search request failed, error: "
                        +:+ "field is a required parameter"))
  /\ calls run = [ResetRequest None]
  /\ calls (_fetchNewData services_setup_throws (heat 24) 7
              (nextMetadata zoom_to_precision_table (heat 24) (viewport 3)))
     = [ StartLoading "source" (mintRequestToken 7)
           (nextMetadata zoom_to_precision_table (heat 24) (viewport 3));
         ResetRequest None;
         OnLoadError "source" (mintRequestToken 7)
           "Cannot read property 'error' of undefined" ].
Proof.
  apply (source_catch_reads_undefined services_setup_throws (heat 24) 7
           (nextMetadata zoom_to_precision_table (heat 24) (viewport 3))
           logs_pattern (mkField "geo.coordinates" "geo_point")
           {| name := "TypeError";
              message := "field is a required parameter" |}).
  - reflexivity.
  - by vm_compute.
  - reflexivity.
Defined.

(** ** A zoom outside the table *)

(** Outside the table the precision is NaN, which is not equal to itself:
    the decision is to fetch whatever the previous metadata is. *)
Lemma shouldRefetch_outside_table (ZOOM_TO_PRECISION : gmap Z N)
    (this : HeatmapLayer) (dataFilters : DataFilters) :
  ZOOM_TO_PRECISION !! Math_round (zoom dataFilters) = None ->
  shouldRefetch ZOOM_TO_PRECISION this dataFilters = true.
Proof.
  intros Hnone. unfold shouldRefetch, isSamePrecision.
  rewrite (targetPrecision_outside_table _ _ _ Hnone).
  destruct (precision <$> dataMeta_of this) as [[] |]; reflexivity.
Qed.

(** C5 (counterexample): a layer shown up to zoom 40 syncs at zoom 31, past
    the last key of the table; the metadata of the fetch has precision NaN,
    and the sync that follows its acceptance, with the same viewport state
    and the same delta, fetches again. *)
Lemma syncData_refetches_outside_table :
  let first := nextMetadata zoom_to_precision_table (heat 40) (viewport 31) in
  let synced := accept (heat 40) first None in
  (exists rest,
     calls (syncData zoom_to_precision_table services_ok (heat 40) 0
              (viewport 31))
     = StartLoading "source" (mintRequestToken 0) first :: rest)
  /\ precision first = NaN
  /\ getPrecisionRefinementDelta synced = getPrecisionRefinementDelta (heat 40)
  /\ shouldRefetch zoom_to_precision_table synced (viewport 31) = true
  /\ (exists rest,
        calls (syncData zoom_to_precision_table services_ok synced 1
                 (viewport 31))
        = StartLoading "source" (mintRequestToken 1) first :: rest).
Proof.
  cbv zeta. split; [| split; [| split; [| split]]].
  - eexists. by vm_compute.
  - by vm_compute.
  - reflexivity.
  - apply shouldRefetch_outside_table. by vm_compute.
  - eexists. by vm_compute.
Qed.

(** ** Scenarios *)

(** X2: a sync whose previous metadata differs in the time range only
    fetches. *)
Theorem shouldRefetch_time_range (ZOOM_TO_PRECISION : gmap Z N)
    (this : HeatmapLayer) (dataFilters : DataFilters) (r : DataRequest) :
  getSourceDataRequest this = Some r ->
  timeFilters (filters (meta r)) <> timeFilters dataFilters ->
  shouldRefetch ZOOM_TO_PRECISION this dataFilters = true.
Proof.
  intros Hr Htime. apply shouldRefetch_iff.
  right; right; left. exists (meta r). by rewrite Hr.
Qed.

Lemma shouldRefetch_time_range_witness :
  shouldRefetch zoom_to_precision_table
    (accept (heat 24)
       (nextMetadata zoom_to_precision_table (heat 24) (viewport 3)) None)
    {| zoom := 3;
       buffer := buffer (viewport 3);
       timeFilters := mkTimeFilters "now-1h" "now";
       refreshTimerLastTriggeredAt := None |}
  = true.
Proof.
  eapply shouldRefetch_time_range.
  - reflexivity.
  - discriminate.
Defined.

(** A first sync at zoom 3 with buckets of 5 and 10 documents: the
    search is sent with the precision of the table at zoom 3 plus the delta
    and with the filters of the extent and of the time range, the two
    features are handed to [stopLoading], and the weight pass gives them the
    weights 1/2 and 1. *)
Theorem first_sync_scenario :
  let dataMeta := nextMetadata zoom_to_precision_table (heat 24) (viewport 3) in
  let h := handle None (Some "geohash_grid logs") in
  let searchSource :=
    makeSearchSource logs_pattern
      (_makeAggConfigs (_source (heat 24)) (of_Z 2))
      (mkField "geo.coordinates" "geo_point")
      (sourceArguments dataMeta "geohash_grid logs") in
  precision dataMeta = of_Z 2
  /\ filter searchSource
     = [ ExtentFilter (Some (mkExtent (-10) (-10) 10 10))
           "geo.coordinates" "geo_point";
         TimeFilter logs_pattern (mkTimeFilters "now-15m" "now") ]
  /\ calls (syncData zoom_to_precision_table services_ok (heat 24) 0
              (viewport 3))
     = [ StartLoading "source" (mintRequestToken 0) dataMeta;
         ResetRequest None;
         StartRequest None (Some "geohash_grid logs");
         RequestStats h; GetSearchRequestBody h;
         SearchFetch searchSource;
         ResponseStats h;
         RequestOk h [mkBucket "9q8y" 5; mkBucket "9q8z" 10];
         StopLoading "source" (mintRequestToken 0) [point 5; point 10] ]
  /\ weight <$> normalizeWeights [point 5; point 10]
     = [Some (Fin (1 # 2)); Some (Fin 1)].
Proof. cbv zeta. repeat split; by vm_compute. Qed.

(** * Further properties *)

(** ** The weight pass, again *)

Lemma scaled_is_not_source : propertyName <> scaledPropertyName.
Proof. discriminate. Qed.

Lemma source_value_set_weight (f : Feature) (v : number) :
  source_value (set_property f scaledPropertyName v) = source_value f.
Proof.
  unfold source_value, set_property. cbn [properties].
  rewrite lookup_insert_ne; [reflexivity |].
  intros H. by apply scaled_is_not_source.
Qed.

Lemma set_weight_twice (f : Feature) (v w : number) :
  set_property (set_property f scaledPropertyName v) scaledPropertyName w
  = set_property f scaledPropertyName w.
Proof.
  unfold set_property. cbn [coordinates properties].
  by rewrite insert_insert_eq.
Qed.

(** The first loop does not read the weights. *)
Lemma max_loop_scaled (m : number) (fc : FeatureCollection) (a : number) :
  fold_left (fun max f => Math_max (source_value f) max)
    (scale_features m fc) a
  = fold_left (fun max f => Math_max (source_value f) max) fc a.
Proof.
  revert a. induction fc as [| f fc IH]; intros a; [reflexivity |].
  cbn [scale_features map fold_left].
  rewrite source_value_set_weight. apply IH.
Qed.

Lemma scale_features_twice (m m' : number) (fc : FeatureCollection) :
  scale_features m (scale_features m' fc) = scale_features m fc.
Proof.
  unfold scale_features. rewrite map_map. apply map_ext. intros f.
  by rewrite source_value_set_weight, set_weight_twice.
Qed.

Lemma collection_max_normalized (fc : FeatureCollection) :
  collection_max (normalizeWeights fc) = collection_max fc.
Proof. unfold normalizeWeights, collection_max. apply max_loop_scaled. Qed.

Lemma normalizeWeights_twice (fc : FeatureCollection) :
  normalizeWeights (normalizeWeights fc) = normalizeWeights fc.
Proof.
  unfold normalizeWeights at 1. rewrite collection_max_normalized.
  apply scale_features_twice.
Qed.

(** X3: the weight pass is idempotent: it reads the counts only, so the
    maximum of a collection that went through it is the same and a second
    pass gives the collection back as it is. *)
Theorem normalizeWeights_idempotent (fc : FeatureCollection) :
  collection_max (normalizeWeights fc) = collection_max fc
  /\ normalizeWeights (normalizeWeights fc) = normalizeWeights fc.
Proof.
  split; [apply collection_max_normalized | apply normalizeWeights_twice].
Qed.

(** X4: the weight pass keeps the collection in order and touches nothing
    but the weight: the features are as many as before, and the feature at
    every index has the coordinates, the count and every other property it
    had. *)
Theorem normalizeWeights_frame (fc : FeatureCollection) :
  length (normalizeWeights fc) = length fc
  /\ forall i f,
       fc !! i = Some f ->
       exists f',
         normalizeWeights fc !! i = Some f'
         /\ coordinates f' = coordinates f
         /\ source_value f' = source_value f
         /\ forall k, k <> scaledPropertyName ->
                      properties f' !! k = properties f !! k.
Proof.
  split; [apply normalizeWeights_length |].
  intros i f Hi. eexists. rewrite normalizeWeights_lookup, Hi.
  split; [reflexivity |]. split; [reflexivity |].
  split; [apply source_value_set_weight |].
  intros k Hk. by apply set_property_frame.
Qed.

Lemma Math_max_NaN_l (a : number) : Math_max NaN a = NaN.
Proof. reflexivity. Qed.

Lemma Math_max_NaN_r (a : number) : Math_max a NaN = NaN.
Proof. by destruct a. Qed.

Lemma div_NaN_r (a : number) : div a NaN = NaN.
Proof. by destruct a. Qed.

Lemma max_loop_from_NaN (fc : FeatureCollection) :
  fold_left (fun max f => Math_max (source_value f) max) fc NaN = NaN.
Proof.
  induction fc as [| f fc IH]; [reflexivity |].
  cbn [fold_left]. by rewrite Math_max_NaN_r.
Qed.

Lemma max_loop_poisoned (fc : FeatureCollection) (f : Feature) (a : number) :
  f ∈ fc -> isNaN (source_value f) = true ->
  fold_left (fun max f => Math_max (source_value f) max) fc a = NaN.
Proof.
  intros Hin Hnan. revert a.
  induction Hin as [f fc | f g fc Hin IH]; intros a; cbn [fold_left].
  - destruct (source_value f); try discriminate.
    rewrite Math_max_NaN_l. apply max_loop_from_NaN.
  - apply IH, Hnan.
Qed.

(** X5: one feature whose count is missing (or is NaN) spoils the whole
    collection: the maximum is NaN and the pass sets every weight, also the
    weight of the features that have a count, to NaN. *)
Theorem normalizeWeights_missing_count (fc : FeatureCollection) (f : Feature) :
  f ∈ fc ->
  isNaN (source_value f) = true ->
  collection_max fc = NaN
  /\ Forall (fun f' => weight f' = Some NaN) (normalizeWeights fc).
Proof.
  intros Hin Hnan.
  assert (Hmax : collection_max fc = NaN)
    by (eapply max_loop_poisoned; eassumption).
  split; [exact Hmax |].
  unfold normalizeWeights, scale_features. rewrite Hmax.
  apply Forall_fmap, Forall_forall. intros g _. cbv beta. unfold compose.
  by rewrite weight_set_property, div_NaN_r.
Qed.

Lemma normalizeWeights_missing_count_witness :
  collection_max
    [point 5; {| coordinates := (0%Q, 0%Q); properties := ∅ |}] = NaN
  /\ Forall (fun f' => weight f' = Some NaN)
       (normalizeWeights
          [point 5; {| coordinates := (0%Q, 0%Q); properties := ∅ |}]).
Proof.
  apply (normalizeWeights_missing_count _
           {| coordinates := (0%Q, 0%Q); properties := ∅ |}).
  - apply list_elem_of_further, list_elem_of_here.
  - reflexivity.
Defined.

(** X6: the scaling is monotone: when the maximum [m] is positive, a
    feature with the smaller count gets the smaller weight (or the same). *)
Theorem normalizeWeights_monotone (fc : FeatureCollection) (m : Q)
    (i j : nat) (f g : Feature) (v1 v2 : Q) :
  collection_max fc = Fin m ->
  (0 < m)%Q ->
  fc !! i = Some f -> source_value f = Fin v1 ->
  fc !! j = Some g -> source_value g = Fin v2 ->
  (v1 <= v2)%Q ->
  exists w1 w2 : Q,
    normalizeWeights fc !! i ≫= weight = Some (Fin w1)
    /\ normalizeWeights fc !! j ≫= weight = Some (Fin w2)
    /\ (w1 <= w2)%Q.
Proof.
  intros Hmax Hm Hi Hf Hj Hg Hle.
  exists (Qred (v1 / m)), (Qred (v2 / m)).
  rewrite !normalizeWeights_lookup, Hi, Hj.
  cbn [fmap option_fmap option_map mbind option_bind].
  rewrite !weight_set_property, Hf, Hg, Hmax, !div_Fin_pos by assumption.
  repeat split. apply Qred_le.
  apply Qmult_le_compat_r; [assumption |].
  apply Qlt_le_weak, Qinv_lt_0_compat, Hm.
Qed.

Lemma normalizeWeights_monotone_witness :
  exists w1 w2 : Q,
    normalizeWeights [point 5; point 10; point 2] !! 2%nat ≫= weight
    = Some (Fin w1)
    /\ normalizeWeights [point 5; point 10; point 2] !! 0%nat ≫= weight
       = Some (Fin w2)
    /\ (w1 <= w2)%Q.
Proof.
  apply (normalizeWeights_monotone [point 5; point 10; point 2] 10 2 0
           (point 2) (point 5) 2 5); try reflexivity.
  discriminate.
Defined.

(** ** The life of a fetch *)

(** X7: every fetch reports its start once, as its first call, and one
    outcome, as its last call: the data to [stopLoading] or a message to
    [onLoadError], with the token of the start; no callback is called in
    between. *)
Theorem fetchNewData_one_outcome (services : Services) (this : HeatmapLayer)
    (fresh : nat) (dataMeta : DataMeta) :
  exists middle final,
    calls (_fetchNewData services this fresh dataMeta)
    = StartLoading "source" (mintRequestToken fresh) dataMeta
      :: middle ++ [final]
    /\ Forall (fun ev => is_callback ev = false) middle
    /\ ((exists data,
           final = StopLoading "source" (mintRequestToken fresh) data)
        \/ (exists message,
              final = OnLoadError "source" (mintRequestToken fresh) message)).
Proof.
  unfold calls. rewrite fetchNewData_run. cbv zeta.
  destruct (source_runs (_source this) services
              (sourceArguments dataMeta (getDisplayName this))
              {| log := log idle
                        ++ [StartLoading "source" (mintRequestToken fresh)
                              dataMeta];
                 inspectorRequest := inspectorRequest idle |});
    cbn -[String.append]; try destruct (convertToGeoJson _ _ _);
    first [ (eexists [_], _; split; [reflexivity |])
          | (eexists [_; _; _; _; _; _], _; split; [reflexivity |])
          | (eexists [_; _; _; _; _; _; _], _; split; [reflexivity |]) ];
    (split; [repeat (apply List.Forall_cons; [reflexivity |]);
             apply List.Forall_nil |]);
    eauto.
Qed.

(** X8: the calls a run of the source makes itself, with the statistics
    helpers taken to return.  The adapter is reset first and once; a request
    is started and a search is sent at most once, the search after the
    start.  [error] is called only on the started request and as the last
    call; [ok] is then not called and the run throws the wrapped message of
    that error.  [ok] is called only on the started request with the
    response the search answered, and the outcome is then the one of the
    conversion.  The run never calls [json]: that call is left to the
    callback on [getSearchRequestBody()], which the run does not await and
    which makes it only when the promise is fulfilled. *)
Theorem source_inspector_calls (this : Descriptor) (services : Services)
    (args : FetchArgs) :
  let run := getGeoJsonPointsWithTotalCount this services args in
  let layerId := arg_layerId args in
  let start := StartRequest layerId (arg_layerName args) in
  let h := handle layerId (arg_layerName args) in
  (exists rest,
     calls run = ResetRequest layerId :: rest
     /\ forall layerId', ResetRequest layerId' ∉ rest)
  /\ (List.filter is_start (calls run) = []
      \/ List.filter is_start (calls run) = [start])
  /\ (forall q, SearchFetch q ∈ calls run ->
        List.filter is_search (calls run) = [SearchFetch q]
        /\ exists before after,
             calls run = before ++ SearchFetch q :: after
             /\ start ∈ before /\ GetSearchRequestBody h ∈ before)
  /\ (forall h' e, RequestError h' e ∈ calls run ->
        h' = h /\ start ∈ calls run
        /\ last (calls run) = Some (RequestError h e)
        /\ (forall h'' resp, RequestOk h'' resp ∉ calls run)
        /\ outcome run
           = inl (new_Error ("Elasticsearch search request failed, error: "
                             +:+ message e)))
  /\ (forall h' resp, RequestOk h' resp ∈ calls run ->
        h' = h /\ start ∈ calls run
        /\ (exists q, SearchFetch q ∈ calls run
                      /\ searchSource_fetch services q = inr resp)
        /\ outcome run
           = convertToGeoJson services
               (_makeAggConfigs this (arg_precision args)) resp)
  /\ (forall h', RequestJson h' ∉ calls run)
  /\ (forall body, requestBody_settled h (inl body : Error + unit) = [])
  /\ (forall body, requestBody_settled h (inr body : Error + unit)
                   = [RequestJson h]).
Proof.
  cbv zeta. unfold calls, outcome.
  destruct (source_runs this services args idle)
    as [e Hget | ip Hget Hfield | ip field e Hget Hfield Hsetup
        | ip field e Hget Hfield searchSource h Hsetup Hfetch
        | ip field resp Hget Hfield searchSource h Hsetup Hfetch];
    cbn [fst snd log idle app List.filter is_start is_search];
    (split; [eexists; split; [reflexivity | inv_calls] |]);
    (split; [by auto |]).
  1-3: by repeat (split; [solve [inv_calls] |]).
  - split; [| split; [| split; [| split; [| by split]]]]; inv_calls.
    + split; [reflexivity |].
      exists [ResetRequest (arg_layerId args);
              StartRequest (arg_layerId args) (arg_layerName args);
              RequestStats h; GetSearchRequestBody h], [RequestError h e].
      split; [reflexivity |]. split; in_calls.
    + repeat split; try in_calls. inv_calls.
  - split; [| split; [| split; [| split; [| by split]]]]; inv_calls.
    + split; [reflexivity |].
      exists [ResetRequest (arg_layerId args);
              StartRequest (arg_layerId args) (arg_layerName args);
              RequestStats h; GetSearchRequestBody h],
             [ResponseStats h; RequestOk h resp].
      split; [reflexivity |]. split; in_calls.
    + repeat split; try in_calls. exists searchSource. split; [in_calls | done].
Qed.

(** X9: when the search answers and the response cannot be converted, the
    adapter has been told [ok] and is told of no error, while the layer
    reports the failure: its last call hands the message of the conversion
    error to [onLoadError] and [stopLoading] is not called. *)
Theorem conversion_failure_after_ok (services : Services)
    (this : HeatmapLayer) (fresh : nat) (dataMeta : DataMeta)
    (indexPattern : IndexPattern) (field : Field) (resp : Resp) (e : Error) :
  indexPatternService_get services (indexPatternId (_source this))
  = inr indexPattern ->
  fields_byName indexPattern !! geoField (_source this) = Some field ->
  let searchSource :=
    makeSearchSource indexPattern
      (_makeAggConfigs (_source this) (precision dataMeta)) field
      (sourceArguments dataMeta (getDisplayName this)) in
  searchSource_setup services searchSource = inr tt ->
  searchSource_fetch services searchSource = inr resp ->
  convertToGeoJson services
    (_makeAggConfigs (_source this) (precision dataMeta)) resp = inl e ->
  let all := calls (_fetchNewData services this fresh dataMeta) in
  RequestOk (handle None (Some (getDisplayName this))) resp ∈ all
  /\ (forall h e', RequestError h e' ∉ all)
  /\ (forall token data, StopLoading "source" token data ∉ all)
  /\ last all
     = Some (OnLoadError "source" (mintRequestToken fresh) (message e)).
Proof.
  intros Hget Hfield searchSource Hsetup Hfetch Hconvert all. subst all.
  unfold calls. rewrite fetchNewData_run. cbv zeta.
  rewrite (source_fetch_answers (_source this) services
             (sourceArguments dataMeta (getDisplayName this))
             indexPattern field Hget Hfield resp _ Hsetup Hfetch).
  cbn [fst snd log idle app sourceArguments arg_precision arg_layerId
       arg_layerName].
  rewrite Hconvert. cbn [app].
  split; [| split; [| split; [| reflexivity]]].
  - do 7 apply list_elem_of_further. apply list_elem_of_here.
  - intros h e' Hin.
    repeat (apply elem_of_cons in Hin as [Hin | Hin]; try discriminate).
    by apply elem_of_nil in Hin.
  - intros token data Hin.
    repeat (apply elem_of_cons in Hin as [Hin | Hin]; try discriminate).
    by apply elem_of_nil in Hin.
Qed.

Lemma conversion_failure_after_ok_witness :
  let dataMeta := nextMetadata zoom_to_precision_table (heat 24) (viewport 3) in
  let all := calls (_fetchNewData services_convert_throws (heat 24) 0 dataMeta) in
  RequestOk (handle None (Some (getDisplayName (heat 24))))
    [mkBucket "9q8y" 5; mkBucket "9q8z" 10] ∈ all
  /\ (forall h e', RequestError h e' ∉ all)
  /\ (forall token data, StopLoading "source" token data ∉ all)
  /\ last all
     = Some (OnLoadError "source" (mintRequestToken 0)
               "Cannot read property 'buckets' of undefined").
Proof.
  cbv zeta.
  apply (conversion_failure_after_ok services_convert_throws (heat 24) 0
           (nextMetadata zoom_to_precision_table (heat 24) (viewport 3))
           logs_pattern (mkField "geo.coordinates" "geo_point")
           [mkBucket "9q8y" 5; mkBucket "9q8z" 10]
           {| name := "TypeError";
              message := "Cannot read property 'buckets' of undefined" |}).
  - reflexivity.
  - by vm_compute.
  - reflexivity.
  - reflexivity.
  - reflexivity.
Defined.

(** X10: a layer without a data request fetches whenever the guards pass:
    visible, shown at the zoom and given a buffer, its sync is the fetch with
    the metadata of the viewport, whatever the precision table holds. *)
Theorem syncData_first_sync (ZOOM_TO_PRECISION : gmap Z N)
    (services : Services) (this : HeatmapLayer) (fresh : nat)
    (dataFilters : DataFilters) :
  getSourceDataRequest this = None ->
  isVisible this = true ->
  showAtZoomLevel this (zoom dataFilters) = true ->
  is_Some (buffer dataFilters) ->
  syncData ZOOM_TO_PRECISION services this fresh dataFilters
  = _fetchNewData services this fresh
      (nextMetadata ZOOM_TO_PRECISION this dataFilters)
  /\ exists rest,
       calls (syncData ZOOM_TO_PRECISION services this fresh dataFilters)
       = StartLoading "source" (mintRequestToken fresh)
           {| filters := dataFilters;
              precision :=
                targetPrecision ZOOM_TO_PRECISION (zoom dataFilters)
                  (getPrecisionRefinementDelta this) |}
         :: ResetRequest None :: rest.
Proof.
  intros Hnone Hvis Hzoom Hbuf.
  assert (Hsync :
    syncData ZOOM_TO_PRECISION services this fresh dataFilters
    = _fetchNewData services this fresh
        (nextMetadata ZOOM_TO_PRECISION this dataFilters)).
  { rewrite syncData_unfold, Hvis, Hzoom, bool_decide_true by assumption.
    replace (shouldRefetch ZOOM_TO_PRECISION this dataFilters) with true;
      [reflexivity |].
    symmetry. apply shouldRefetch_iff. by left. }
  split; [exact Hsync |]. rewrite Hsync.
  destruct (fetchNewData_calls services this fresh
              (nextMetadata ZOOM_TO_PRECISION this dataFilters))
    as (rest & Hcalls & _).
  eauto.
Qed.

Lemma syncData_first_sync_witness :
  syncData zoom_to_precision_table services_ok (heat 40) 0 (viewport 31)
  = _fetchNewData services_ok (heat 40) 0
      (nextMetadata zoom_to_precision_table (heat 40) (viewport 31))
  /\ exists rest,
       calls (syncData zoom_to_precision_table services_ok (heat 40) 0
                (viewport 31))
       = StartLoading "source" (mintRequestToken 0)
           {| filters := viewport 31;
              precision :=
                targetPrecision zoom_to_precision_table (zoom (viewport 31))
                  (getPrecisionRefinementDelta (heat 40)) |}
         :: ResetRequest None :: rest.
Proof.
  apply (syncData_first_sync zoom_to_precision_table services_ok (heat 40) 0
           (viewport 31)).
  - reflexivity.
  - reflexivity.
  - reflexivity.
  - simpl. eauto.
Defined.

(** X11: the precision depends on the zoom through its rounding only: on
    each interval [n - 1/2, n + 1/2) the zoom rounds to [n] and the precision
    is the one of zoom [n]. *)
Theorem targetPrecision_rounding_interval (ZOOM_TO_PRECISION : gmap Z N)
    (n : Z) (zoom : Q) (delta : Z) :
  (inject_Z n - (1 # 2) <= zoom)%Q ->
  (zoom < inject_Z n + (1 # 2))%Q ->
  Math_round zoom = n
  /\ targetPrecision ZOOM_TO_PRECISION zoom delta
     = targetPrecision ZOOM_TO_PRECISION (inject_Z n) delta.
Proof.
  intros Hlo Hhi.
  assert (Hround : Math_round zoom = n).
  { unfold Math_round. apply Z.le_antisymm.
    - assert (H : (Qfloor (zoom + (1 # 2)) < n + 1)%Z); [| lia].
      rewrite Zlt_Qlt. eapply Qle_lt_trans; [apply Qfloor_le |].
      rewrite inject_Z_plus. change (inject_Z 1) with 1%Q.
      set (r := inject_Z n) in *. lra.
    - rewrite <- (Qfloor_Z n) at 1. apply Qfloor_resp_le.
      set (r := inject_Z n) in *. lra. }
  split; [exact Hround |].
  unfold targetPrecision. by rewrite Hround, Math_round_inject_Z.
Qed.

Lemma targetPrecision_rounding_interval_witness :
  Math_round (17 # 5) = 3
  /\ targetPrecision zoom_to_precision_table (17 # 5) 1
     = targetPrecision zoom_to_precision_table (inject_Z 3) 1.
Proof.
  apply (targetPrecision_rounding_interval zoom_to_precision_table 3 (17 # 5) 1).
  - by vm_compute.
  - by vm_compute.
Defined.

(** ** [syncLayerWithMB] *)

Lemma mb_calls_fold (cs : list MbCall) (mbMap : MbMap) :
  mb_calls (fold_left mb_call cs mbMap) = mb_calls mbMap ++ cs.
Proof.
  revert mbMap. induction cs as [| c cs IH]; intros mbMap; cbn [fold_left].
  - by rewrite app_nil_r.
  - rewrite IH. cbn [mb_call mb_calls]. by rewrite <- app_assoc.
Qed.

Lemma mb_sources_fold (cs : list MbCall) (mbMap : MbMap) :
  mb_sources mbMap ⊆ mb_sources (fold_left mb_call cs mbMap).
Proof.
  revert mbMap. induction cs as [| c cs IH]; intros mbMap; cbn [fold_left].
  - reflexivity.
  - etrans; [| apply IH]. destruct c; cbn [mb_call mb_sources]; set_solver.
Qed.

(** The calls made on top of a map by two runs of calls. *)
Lemma new_calls_fold (cs1 cs2 : list MbCall) (mbMap : MbMap) :
  drop (length (mb_calls mbMap))
    (mb_calls (fold_left mb_call cs2 (fold_left mb_call cs1 mbMap)))
  = cs1 ++ cs2.
Proof. by rewrite !mb_calls_fold, <- app_assoc, drop_app_length. Qed.

(** Once the additions are made the map has the source of the layer. *)
Lemma getSource_after_additions (mbMap : MbMap) (this : HeatmapLayer) :
  getSource (fold_left mb_call (additions mbMap this) mbMap) (getId this)
  = Some (getId this).
Proof.
  unfold additions, getSource.
  destruct (bool_decide_reflect (getId this ∈ mb_sources mbMap)) as [Hin | Hin];
    cbn [fold_left].
  - by rewrite bool_decide_true.
  - rewrite bool_decide_true; [reflexivity |].
    cbn [mb_call mb_sources]. set_solver.
Qed.

(** [syncLayerWithMB] without the branches it never takes: [mbSourceAfter]
    is always defined. *)
Lemma syncLayerWithMB_eq (mbMap : MbMap) (this : HeatmapLayer)
    (object : nat) (dataBoundToMap : option nat) :
  syncLayerWithMB mbMap this object dataBoundToMap
  = let added := fold_left mb_call (additions mbMap this) mbMap in
    match collection_of this with
    | None => inr (mb_call added (SetData (getId this) []), this)
    | Some features =>
        if bool_decide (dataBoundToMap = Some object)
        then inr (fold_left mb_call (settings this) added, this)
        else
          inr (fold_left mb_call
                 (SetData (getId this) (normalizeWeights features)
                  :: settings this) added,
               with_features this (normalizeWeights features))
    end.
Proof.
  pose proof (getSource_after_additions mbMap this) as Hafter.
  unfold syncLayerWithMB, collection_of. cbv zeta.
  unfold additions in *. fold (heatmapLayerId this).
  destruct (getSource mbMap (getId this)) as [src |] eqn:Hsrc;
    cbn [fold_left] in *; rewrite Hafter;
    destruct (getSourceDataRequest this ≫= data) as [features |];
    try reflexivity;
    destruct (bool_decide (dataBoundToMap = Some object)); reflexivity.
Qed.

(** X12: [syncLayerWithMB] never fails, and it adds the source and the
    heatmap layer exactly when the map has no source under the identifier of
    the layer: the calls it makes are these additions followed by calls that
    add nothing, the map has the source afterwards, and a sync that follows
    has nothing to add. *)
Theorem syncLayerWithMB_adds_once (mbMap : MbMap) (this : HeatmapLayer)
    (object : nat) (dataBoundToMap : option nat) :
  exists mbMap' this' rest,
    syncLayerWithMB mbMap this object dataBoundToMap = inr (mbMap', this')
    /\ mb_calls mbMap' = mb_calls mbMap ++ additions mbMap this ++ rest
    /\ Forall (fun c => is_addition c = false) rest
    /\ getSource mbMap' (getId this) = Some (getId this)
    /\ getId this' = getId this
    /\ additions mbMap' this' = [].
Proof.
  rewrite syncLayerWithMB_eq. cbv zeta.
  pose proof (getSource_after_additions mbMap this) as Hafter.
  set (added := fold_left mb_call (additions mbMap this) mbMap) in *.
  assert (Hcalls : mb_calls added = mb_calls mbMap ++ additions mbMap this)
    by apply mb_calls_fold.
  assert (Hkeep : forall cs this',
            getId this' = getId this ->
            getSource (fold_left mb_call cs added) (getId this)
            = Some (getId this)
            /\ additions (fold_left mb_call cs added) this' = []).
  { intros cs this' Hid.
    assert (H : getSource (fold_left mb_call cs added) (getId this)
                = Some (getId this)).
    { unfold getSource in *. rewrite bool_decide_true; [reflexivity |].
      apply (mb_sources_fold cs added).
      destruct (bool_decide_reflect (getId this ∈ mb_sources added));
        [assumption | discriminate]. }
    split; [exact H |]. unfold additions. by rewrite Hid, H. }
  destruct (collection_of this) as [features |].
  - destruct (bool_decide (dataBoundToMap = Some object)).
    + exists (fold_left mb_call (settings this) added), this, (settings this).
      rewrite mb_calls_fold, Hcalls, <- app_assoc.
      destruct (Hkeep (settings this) this eq_refl).
      repeat split; try assumption. by repeat constructor.
    + eexists _, _, (SetData (getId this) (normalizeWeights features)
                     :: settings this).
      split; [reflexivity |].
      rewrite mb_calls_fold, Hcalls, <- app_assoc.
      destruct (Hkeep (SetData (getId this) (normalizeWeights features)
                       :: settings this)
                  (with_features this (normalizeWeights features)) eq_refl).
      repeat split; try assumption. by repeat constructor.
  - exists (mb_call added (SetData (getId this) [])), this,
      [SetData (getId this) []].
    destruct (Hkeep [SetData (getId this) []] this eq_refl).
    cbn [mb_call mb_calls]. rewrite Hcalls, <- app_assoc.
    repeat split; try assumption. by repeat constructor.
Qed.

(** X13: a layer without data (no data request, or a request that holds no
    collection) has its source emptied and nothing else done: after the
    additions the only call is [setData] with an empty collection; the
    visibility, the paint properties and the zoom range of the map layer are
    not written. *)
Theorem syncLayerWithMB_without_data (mbMap : MbMap) (this : HeatmapLayer)
    (object : nat) (dataBoundToMap : option nat) :
  collection_of this = None ->
  exists mbMap',
    syncLayerWithMB mbMap this object dataBoundToMap = inr (mbMap', this)
    /\ mb_calls mbMap'
       = mb_calls mbMap ++ additions mbMap this ++ [SetData (getId this) []]
    /\ Forall (fun c => is_setting c = false)
         (additions mbMap this ++ [SetData (getId this) []]).
Proof.
  intros Hnone. rewrite syncLayerWithMB_eq, Hnone. cbv zeta.
  eexists. split; [reflexivity |].
  cbn [mb_call mb_calls]. rewrite mb_calls_fold, <- app_assoc.
  split; [reflexivity |].
  unfold additions. destruct (getSource mbMap (getId this));
    by repeat constructor.
Qed.

Lemma syncLayerWithMB_without_data_witness :
  exists mbMap',
    syncLayerWithMB {| mb_sources := ∅; mb_calls := [] |} (heat 24) 0 None
    = inr (mbMap', heat 24)
    /\ mb_calls mbMap'
       = mb_calls {| mb_sources := ∅; mb_calls := [] |}
         ++ additions {| mb_sources := ∅; mb_calls := [] |} (heat 24)
         ++ [SetData (getId (heat 24)) []]
    /\ Forall (fun c => is_setting c = false)
         (additions {| mb_sources := ∅; mb_calls := [] |} (heat 24)
          ++ [SetData (getId (heat 24)) []]).
Proof.
  apply (syncLayerWithMB_without_data {| mb_sources := ∅; mb_calls := [] |}
           (heat 24) 0 None).
  reflexivity.
Defined.

(** X14: a layer with data: after the additions the collection is handed to
    [setData], with its weights, unless it is the object already bound to the
    map, in which case it is neither scaled nor handed over; then the
    visibility (from [isVisible]), the paint properties (for the weight
    property) and the zoom range of the descriptor are written, in this
    order.  The collection the layer holds afterwards is the one that was
    handed over. *)
Theorem syncLayerWithMB_with_data (mbMap : MbMap) (this : HeatmapLayer)
    (object : nat) (dataBoundToMap : option nat)
    (features : FeatureCollection) :
  collection_of this = Some features ->
  exists mbMap' this',
    syncLayerWithMB mbMap this object dataBoundToMap = inr (mbMap', this')
    /\ mb_calls mbMap'
       = mb_calls mbMap ++ additions mbMap this
         ++ (if bool_decide (dataBoundToMap = Some object) then []
             else [SetData (getId this) (normalizeWeights features)])
         ++ settings this
    /\ collection_of this'
       = Some (if bool_decide (dataBoundToMap = Some object) then features
               else normalizeWeights features)
    /\ settings this' = settings this.
Proof.
  intros Hdata. rewrite syncLayerWithMB_eq, Hdata. cbv zeta.
  destruct (bool_decide (dataBoundToMap = Some object));
    do 2 eexists; (split; [reflexivity |]);
    rewrite !mb_calls_fold, <- !app_assoc; (split; [reflexivity |]).
  - by split.
  - split; [| reflexivity].
    unfold collection_of, with_features in *. cbn [getSourceDataRequest].
    by destruct (getSourceDataRequest this).
Qed.

Lemma syncLayerWithMB_with_data_witness :
  exists mbMap' this',
    syncLayerWithMB {| mb_sources := ∅; mb_calls := [] |}
      (accept (heat 24)
         (nextMetadata zoom_to_precision_table (heat 24) (viewport 3))
         (Some [point 5; point 10])) 0 None
    = inr (mbMap', this')
    /\ mb_calls mbMap'
       = mb_calls {| mb_sources := ∅; mb_calls := [] |}
         ++ additions {| mb_sources := ∅; mb_calls := [] |}
              (accept (heat 24)
                 (nextMetadata zoom_to_precision_table (heat 24) (viewport 3))
                 (Some [point 5; point 10]))
         ++ (if bool_decide (None = Some 0%nat) then []
             else [SetData "heat-1" (normalizeWeights [point 5; point 10])])
         ++ settings
              (accept (heat 24)
                 (nextMetadata zoom_to_precision_table (heat 24) (viewport 3))
                 (Some [point 5; point 10]))
    /\ collection_of this'
       = Some (if bool_decide (None = Some 0%nat) then [point 5; point 10]
               else normalizeWeights [point 5; point 10])
    /\ settings this'
       = settings
           (accept (heat 24)
              (nextMetadata zoom_to_precision_table (heat 24) (viewport 3))
              (Some [point 5; point 10])).
Proof.
  apply (syncLayerWithMB_with_data {| mb_sources := ∅; mb_calls := [] |}
           (accept (heat 24)
              (nextMetadata zoom_to_precision_table (heat 24) (viewport 3))
              (Some [point 5; point 10])) 0 None [point 5; point 10]).
  reflexivity.
Defined.

(** X15: syncing again never changes the weights: once a sync has scaled
    the collection of the layer, a sync that follows, whatever object is
    bound to the map by then, leaves the layer with the same collection, and
    if it hands a collection to [setData] it is this one. *)
Theorem syncLayerWithMB_resync (mbMap : MbMap) (this : HeatmapLayer)
    (object : nat) (dataBoundToMap : option nat)
    (features : FeatureCollection)
    (object' : nat) (dataBoundToMap' : option nat) :
  collection_of this = Some features ->
  dataBoundToMap <> Some object ->
  exists mbMap1 this1 mbMap2 this2,
    syncLayerWithMB mbMap this object dataBoundToMap = inr (mbMap1, this1)
    /\ syncLayerWithMB mbMap1 this1 object' dataBoundToMap'
       = inr (mbMap2, this2)
    /\ collection_of this1 = Some (normalizeWeights features)
    /\ collection_of this2 = Some (normalizeWeights features)
    /\ forall sourceId collection,
         SetData sourceId collection
           ∈ drop (length (mb_calls mbMap1)) (mb_calls mbMap2) ->
         collection = normalizeWeights features.
Proof.
  intros Hdata Hbound.
  assert (Hcoll1 : collection_of (with_features this (normalizeWeights features))
                   = Some (normalizeWeights features)).
  { unfold collection_of, with_features in *. cbn [getSourceDataRequest].
    by destruct (getSourceDataRequest this). }
  rewrite syncLayerWithMB_eq, Hdata, bool_decide_false by assumption.
  cbv zeta. do 2 eexists.
  rewrite syncLayerWithMB_eq, Hcoll1, normalizeWeights_twice. cbv zeta.
  assert (Hcoll2 :
            collection_of
              (with_features (with_features this (normalizeWeights features))
                 (normalizeWeights features))
            = Some (normalizeWeights features)).
  { unfold collection_of, with_features in *. cbn [getSourceDataRequest].
    by destruct (getSourceDataRequest this). }
  destruct (bool_decide (dataBoundToMap' = Some object'));
    do 2 eexists; (split; [reflexivity |]);
    (split; [reflexivity |]); (split; [reflexivity |]);
    (split; [first [exact Hcoll2 | exact Hcoll1] |]);
    intros sourceId collection;
    rewrite new_calls_fold;
    unfold additions, settings; destruct (getSource _ _); cbn [app];
    intros Hin;
    repeat (apply elem_of_cons in Hin as [Hin | Hin]; try discriminate);
    try (by apply elem_of_nil in Hin); by injection Hin.
Qed.

Lemma syncLayerWithMB_resync_witness :
  exists mbMap1 this1 mbMap2 this2,
    syncLayerWithMB {| mb_sources := ∅; mb_calls := [] |}
      (accept (heat 24)
         (nextMetadata zoom_to_precision_table (heat 24) (viewport 3))
         (Some [point 5; point 10])) 0 None
    = inr (mbMap1, this1)
    /\ syncLayerWithMB mbMap1 this1 0 None = inr (mbMap2, this2)
    /\ collection_of this1 = Some (normalizeWeights [point 5; point 10])
    /\ collection_of this2 = Some (normalizeWeights [point 5; point 10])
    /\ forall sourceId collection,
         SetData sourceId collection
           ∈ drop (length (mb_calls mbMap1)) (mb_calls mbMap2) ->
         collection = normalizeWeights [point 5; point 10].
Proof.
  apply (syncLayerWithMB_resync {| mb_sources := ∅; mb_calls := [] |}
           (accept (heat 24)
              (nextMetadata zoom_to_precision_table (heat 24) (viewport 3))
              (Some [point 5; point 10])) 0 None [point 5; point 10] 0 None).
  - reflexivity.
  - discriminate.
Defined.

(** ** The source: schemas, descriptor and details *)

(** X16: the aggregation specs of every fetch fit [aggSchemas]: each spec is
    enabled, is filed under a schema of [aggSchemas] whose filter admits its
    type, every schema has between its [min] and its [max] specs (one of
    each), the default of the metric schema is the metric that is asked for,
    and the identifiers of the specs differ. *)
Theorem makeAggConfigs_conforms (this : Descriptor) (precision : number) :
  let configs := _makeAggConfigs this precision in
  Forall (fun c =>
            enabled c = true
            /\ exists s, s ∈ aggSchemas
                         /\ schema_name s = schema c
                         /\ type c ∈ aggFilter s) configs
  /\ Forall (fun s =>
               (schema_min s <= length (configs_of s configs))%nat
               /\ (length (configs_of s configs) <= schema_max s)%nat)
       aggSchemas
  /\ Forall (fun s =>
               Forall (fun d => exists c, c ∈ configs
                                          /\ schema c = d.1 /\ type c = d.2)
                 (defaults s)) aggSchemas
  /\ NoDup (id <$> configs).
Proof.
  cbv zeta. unfold _makeAggConfigs, aggSchemas.
  split; [| split; [| split]].
  - repeat (apply List.Forall_cons || apply List.Forall_nil).
    + split; [reflexivity |]. eexists. split; [apply list_elem_of_here |].
      split; [reflexivity |]. apply list_elem_of_here.
    + split; [reflexivity |]. eexists.
      split; [apply list_elem_of_further, list_elem_of_here |].
      split; [reflexivity |]. apply list_elem_of_here.
  - repeat (apply List.Forall_cons || apply List.Forall_nil); cbn; lia.
  - repeat (apply List.Forall_cons || apply List.Forall_nil).
    eexists. split; [apply list_elem_of_here |]. by split.
  - cbn. apply NoDup_cons. split; [| apply NoDup_singleton].
    intros Hin. apply list_elem_of_singleton in Hin. discriminate.
Qed.

(** X17: the details of a source made by [createDescriptor] show neither
    the index pattern nor the point field: [renderDetails] reads the keys
    [esIndexPattern] and [pointField], while the descriptor holds the two
    under [indexPatternId] and [geoField], where the fetch reads them. *)
Theorem renderDetails_reads_unset_keys (indexPatternId geoField : string) :
  let descriptor := createDescriptor indexPatternId geoField in
  read_descriptor descriptor
  = Some {| indexPatternId := indexPatternId; geoField := geoField |}
  /\ descriptor !! "type" = Some "ES_GEOHASH_GRID"
  /\ renderDetails descriptor
     = [ ("Type: ", Some "Geohash grid (todo, use icon)");
         ("Index pattern: ", None);
         ("Point field: ", None) ].
Proof.
  cbv zeta. unfold createDescriptor, read_descriptor, renderDetails.
  repeat split.
Qed.

(** ** The editor *)

Lemma Editor_truthy_Some (s : string) :
  Editor.truthy (Some s) = true <-> s <> "".
Proof.
  unfold Editor.truthy. rewrite negb_true_iff.
  destruct (String.eqb_spec s ""); split; congruence.
Qed.

(** X18: [previewLayer] calls [onSelect] only with an index pattern and a
    geo field that are both set and not empty, and otherwise does nothing;
    the source made from what it passes looks up that index pattern, goes by
    its name, and aggregates on that geo field. *)
Theorem previewLayer_selects (this : Editor.Component) :
  (Editor.previewLayer this = []
   /\ Editor.truthy (Editor.indexPatternId (Editor.state this))
      && Editor.truthy (Editor.geoField (Editor.state this)) = false)
  \/ exists i g d,
       Editor.previewLayer this = [Editor.OnSelect i g]
       /\ Editor.indexPatternId (Editor.state this) = Some i
       /\ Editor.geoField (Editor.state this) = Some g
       /\ i <> "" /\ g <> ""
       /\ read_descriptor (renderEditor_onSelect i g) = Some d
       /\ indexPatternId d = i
       /\ source_getDisplayName d = "geohash_grid " +:+ i
       /\ forall precision,
            exists metric grid p,
              _makeAggConfigs d precision = [metric; grid]
              /\ params grid = GridParams p
              /\ Grid.field p = g.
Proof.
  unfold Editor.previewLayer.
  destruct (Editor.indexPatternId (Editor.state this)) as [i |];
    [| left; by split].
  destruct (Editor.geoField (Editor.state this)) as [g |];
    [| left; split; [reflexivity | apply andb_false_r]].
  destruct (Editor.truthy (Some i) && Editor.truthy (Some g)) eqn:Hboth;
    [| left; by split].
  apply andb_true_iff in Hboth as [Hi Hg].
  apply Editor_truthy_Some in Hi, Hg.
  right. exists i, g, {| indexPatternId := i; geoField := g |}.
  repeat split; try assumption.
  intros precision. do 3 eexists. unfold _makeAggConfigs.
  split; [reflexivity |]. by split.
Qed.

(** Choosing an index pattern asks for its load and resets the rest:
    whatever was chosen before, the pattern and the geo field of the state
    are unset, so that no geo select is rendered and [previewLayer] does
    nothing until a load and a choice of field have followed. *)
Theorem onIndexPatternSelect_resets (id : option string)
    (this : Editor.Component) :
  let next := (Editor.onIndexPatternSelect id this).1 in
  (Editor.onIndexPatternSelect id this).2 = [Editor.DebouncedLoad id]
  /\ Editor.indexPatternId (Editor.state next) = id
  /\ Editor.isLoadingIndexPattern (Editor.state next) = true
  /\ Editor._renderGeoSelect next = None
  /\ Editor.previewLayer next = []
  /\ Editor._isMounted next = Editor._isMounted this.
Proof.
  cbv zeta. unfold Editor.onIndexPatternSelect, Editor.loadIndexPattern.
  cbn [fst snd Editor.state Editor.indexPatternId Editor.geoField].
  repeat split. unfold Editor.previewLayer.
  cbn [Editor.state Editor.indexPatternId Editor.geoField].
  by destruct id.
Qed.

(** X19: an answer of the index pattern service is dropped, and the state
    with its loading flag left as it is, when no index pattern was asked for
    (the identifier is unset or empty), when the service fails, when the
    component is not mounted (not yet, or no longer), or when the index
    pattern that arrives is not the one asked for. *)
Theorem debouncedLoad_ignored (get : string -> Error + Editor.Loaded)
    (id : option string) (this : Editor.Component) :
  Editor.truthy id = false
  \/ (exists requested e, id = Some requested /\ get requested = inl e)
  \/ Editor._isMounted this <> Some true
  \/ (exists requested loaded,
        id = Some requested /\ get requested = inr loaded
        /\ Editor.id loaded <> requested) ->
  Editor.debouncedLoad get id this = this
  /\ Editor.debouncedLoad get id (Editor.componentWillUnmount this)
     = Editor.componentWillUnmount this.
Proof.
  intros Hcase.
  assert (Hun : Editor.debouncedLoad get id (Editor.componentWillUnmount this)
                = Editor.componentWillUnmount this).
  { unfold Editor.debouncedLoad. destruct id as [r |]; [| reflexivity].
    destruct (String.eqb r ""); [reflexivity |].
    by destruct (get r). }
  split; [| exact Hun].
  unfold Editor.debouncedLoad.
  destruct id as [r |]; [| reflexivity].
  destruct (String.eqb r "") eqn:Hr; [reflexivity |].
  destruct (get r) as [e | loaded] eqn:Hget; [reflexivity |].
  destruct Hcase as [H | [(r' & e & [= <-] & H) | [H | (r' & l & [= <-] & H & Hid)]]].
  - cbn in H. by rewrite Hr in H.
  - congruence.
  - destruct (Editor._isMounted this) as [[] |]; try reflexivity. congruence.
  - destruct (negb (default false (Editor._isMounted this))); [reflexivity |].
    rewrite Hget in H. injection H as <-.
    destruct (String.eqb_spec (Editor.id loaded) r); [congruence | reflexivity].
Qed.

Lemma debouncedLoad_ignored_witness :
  Editor.debouncedLoad (fun _ => inl (new_Error "Not Found")) (Some "logs")
    (Editor.componentDidMount Editor.constructor).1
  = (Editor.componentDidMount Editor.constructor).1
  /\ Editor.debouncedLoad (fun _ => inl (new_Error "Not Found")) (Some "logs")
       (Editor.componentWillUnmount
          (Editor.componentDidMount Editor.constructor).1)
     = Editor.componentWillUnmount
         (Editor.componentDidMount Editor.constructor).1.
Proof.
  apply (debouncedLoad_ignored (fun _ => inl (new_Error "Not Found"))
           (Some "logs") (Editor.componentDidMount Editor.constructor).1).
  right; left. exists "logs", (new_Error "Not Found"). by split.
Defined.

(** X20: the way to a preview: on a mounted component, choosing an index
    pattern, the arrival of that index pattern and the choice of a geo field
    end in one call of [onSelect] with the two; in between the geo select is
    rendered with the fields of the pattern and no value, and the loading
    flag is down. *)
Theorem editor_preview_flow (get : string -> Error + Editor.Loaded)
    (this : Editor.Component) (requested g : string)
    (loaded : Editor.Loaded) :
  Editor._isMounted this = Some true ->
  requested <> "" ->
  g <> "" ->
  get requested = inr loaded ->
  Editor.id loaded = requested ->
  let chosen := Editor.onIndexPatternSelect (Some requested) this in
  let arrived := Editor.debouncedLoad get (Some requested) chosen.1 in
  let picked := Editor.onGeoFieldSelect (Some g) arrived in
  chosen.2 = [Editor.DebouncedLoad (Some requested)]
  /\ Editor.isLoadingIndexPattern (Editor.state arrived) = false
  /\ Editor._renderGeoSelect arrived
     = Some (None, fields_byName (Editor.pattern loaded))
  /\ Editor.previewLayer arrived = []
  /\ picked.2 = [Editor.OnSelect requested g].
Proof.
  intros Hmounted Hr Hg Hget Hid. cbv zeta.
  unfold Editor.onIndexPatternSelect, Editor.loadIndexPattern,
    Editor.debouncedLoad.
  cbn [fst snd Editor.state Editor._isMounted].
  destruct (String.eqb_spec requested ""); [congruence |].
  rewrite Hget, Hmounted. unfold default. cbn [from_option negb].
  unfold Datatypes.id. cbn [negb].
  rewrite Hid, String.eqb_refl. cbn [negb].
  unfold Editor.onGeoFieldSelect, Editor.previewLayer, Editor._renderGeoSelect.
  cbn [fst snd Editor.state Editor.indexPatternId Editor.geoField
       Editor.indexPattern Editor.isLoadingIndexPattern mbind option_bind].
  repeat split. unfold Editor.truthy.
  destruct (String.eqb_spec requested ""); [congruence |].
  destruct (String.eqb_spec g ""); [congruence |]. reflexivity.
Qed.

Lemma editor_preview_flow_witness :
  let get := fun _ : string =>
               inr (B := Editor.Loaded) (A := Error)
                 {| Editor.id := "logs"; Editor.pattern := logs_pattern |} in
  let chosen :=
    Editor.onIndexPatternSelect (Some "logs")
      (Editor.componentDidMount Editor.constructor).1 in
  let arrived := Editor.debouncedLoad get (Some "logs") chosen.1 in
  let picked := Editor.onGeoFieldSelect (Some "geo.coordinates") arrived in
  chosen.2 = [Editor.DebouncedLoad (Some "logs")]
  /\ Editor.isLoadingIndexPattern (Editor.state arrived) = false
  /\ Editor._renderGeoSelect arrived
     = Some (None, fields_byName logs_pattern)
  /\ Editor.previewLayer arrived = []
  /\ picked.2 = [Editor.OnSelect "logs" "geo.coordinates"].
Proof.
  cbv zeta.
  apply (editor_preview_flow
           (fun _ => inr {| Editor.id := "logs";
                            Editor.pattern := logs_pattern |})
           (Editor.componentDidMount Editor.constructor).1
           "logs" "geo.coordinates"
           {| Editor.id := "logs"; Editor.pattern := logs_pattern |}).
  - reflexivity.
  - discriminate.
  - discriminate.
  - reflexivity.
  - reflexivity.
Defined.
